(** * Smart Task Analyzer: the [/analyze-task] handler of [main.py]

    A shallow embedding of the request handler [analyze_task], of the
    [TaskAnalysis] schema it validates against and of the defaulting step
    between JSON decoding and validation, followed by the properties of the
    handler's specification.

    The handler talks to three things that are not part of the program:
    the process environment, the completion client and two decoders of the
    Python standard library ([json.loads], [datetime.fromisoformat]).  They
    are gathered in the record [World]; every theorem holds for every
    world.

    A run of the handler ends with a response or with an exception.  Next
    to the [HTTPException]s it raises itself, three exceptions leave it
    from places outside every [try]: the [AttributeError] of [data.get] on
    a decoded value that is no object (line 85), the [ValueError] of
    [exc.json()] inside the [except] clause of line 95, and the
    [UnicodeEncodeError] of the constructor of the response (line 103),
    the last two on strings that hold a lone surrogate. *)

From Stdlib Require Import ZArith Ascii.
From stdpp Require Import base option list strings gmap fin_maps.

Set Warnings "-register-all".

Open Scope Z_scope.
Open Scope string_scope.
Open Scope list_scope.

(** ** Values decoded from JSON

    What [json.loads] hands back: [None], [bool], [int], [float], [str],
    [list] and [dict].  A [float] is kept as its binary64 bit pattern; a
    [dict] decoded from JSON has string keys. *)

Inductive json : Type :=
| JNull
| JBool (b : bool)
| JInt (n : Z)
| JFloat (bits : Z)
| JStr (s : string)
| JList (items : list json)
| JDict (fields : gmap string json).

(** [type(v).__name__], as it appears in the text of an [AttributeError]. *)
Definition type_name (v : json) : string :=
  match v with
  | JNull => "NoneType"
  | JBool _ => "bool"
  | JInt _ => "int"
  | JFloat _ => "float"
  | JStr _ => "str"
  | JList _ => "list"
  | JDict _ => "dict"
  end.

(** ** Strings that cannot be encoded

    A Python [str] is kept as the bytes of its UTF-8 encoding.  A [str] may
    hold a lone surrogate (the decoder produces one for an escape such as
    [\ud800]); it is kept as the three bytes its code point would take,
    a lead byte 237 followed by a byte from 160 to 191, which no encodable
    string contains. *)

Definition surrogate_lead (c : ascii) : bool := Nat.eqb (nat_of_ascii c) 237.
Definition surrogate_next (c : ascii) : bool :=
  (Nat.leb 160 (nat_of_ascii c) && Nat.leb (nat_of_ascii c) 191)%bool.

(** [s.encode("utf-8")] succeeds: [s] holds no surrogate. *)
Fixpoint encodable (s : string) : bool :=
  match s with
  | "" => true
  | String c s' =>
      negb (surrogate_lead c &&
            match s' with
            | String d _ => surrogate_next d
            | "" => false
            end)
      && encodable s'
  end.

(** No string inside [v], key or value, holds a surrogate. *)
Fixpoint json_encodable (v : json) : bool :=
  match v with
  | JStr s => encodable s
  | JList items => forallb json_encodable items
  | JDict fields =>
      map_fold (λ k v' acc, encodable k && json_encodable v' && acc) true fields
  | _ => true
  end.

(** A binary64 bit pattern that is neither an infinity nor a NaN: its
    exponent field is not all ones. *)
Definition float_finite (bits : Z) : bool :=
  negb (Z.eqb (Z.land (Z.shiftr bits 52) 2047) 2047).

(** No float inside [v] is an infinity or a NaN. *)
Fixpoint json_finite (v : json) : bool :=
  match v with
  | JFloat bits => float_finite bits
  | JList items => forallb json_finite items
  | JDict fields => map_fold (λ _ v' acc, json_finite v' && acc) true fields
  | _ => true
  end.

(** [v is None] for the result of [dict.get]: the key is absent or holds
    [null]. *)
Definition is_None (o : option json) : bool :=
  match o with
  | None | Some JNull => true
  | Some _ => false
  end.

(** [v in (None, "")] for the result of [dict.get]. *)
Definition in_None_or_empty (o : option json) : bool :=
  match o with
  | None | Some JNull | Some (JStr "") => true
  | Some _ => false
  end.

(** ** The defaulting step (lines 85-90)

    Three guarded assignments on the decoded dictionary, in source order. *)

Definition default_priority (data : gmap string json) : gmap string json :=
  if is_None (data !! "priority") then <["priority" := JStr "medium"]> data else data.

Definition default_category (data : gmap string json) : gmap string json :=
  if in_None_or_empty (data !! "category") then <["category" := JStr "general"]> data else data.

Definition default_due_date (data : gmap string json) : gmap string json :=
  if is_None (data !! "due_date") then <["due_date" := JNull]> data else data.

Definition apply_defaults (data : gmap string json) : gmap string json :=
  default_due_date (default_category (default_priority data)).

(** ** The schema classes (lines 15-27)

    The classes are pydantic models used through [model_dump], so the
    validation is the one of pydantic 2: a [str] field accepts only a
    string, a [Literal] field only one of its members, and keyword
    arguments that name no field are ignored. *)

(** [TaskRequest]: the body of the request.  The framework builds it
    before the handler runs and enforces [min_length=1] on [text]. *)
Record TaskRequest : Type := { text : string }.

(** [TaskAnalysis]: [priority] is stored as the string that was accepted,
    [due_date] is [str | None]. *)
Record TaskAnalysis : Type := {
  description : string;
  priority : string;
  due_date : option string;
  category : string
}.

(** One entry of a validation error: the kind of error, the location (a
    one-element tuple naming the field), the message and the offending
    input. *)
Record ErrorDetails : Type := {
  type_ : string;
  loc : list string;
  msg : string;
  input_value : json
}.

(** A required [str] field. *)
Definition validate_required_str (name : string) (data : gmap string json)
  : ErrorDetails + string :=
  match data !! name with
  | None => inl {| type_ := "missing"; loc := [name];
                   msg := "Field required"; input_value := JDict data |}
  | Some (JStr s) => inr s
  | Some v => inl {| type_ := "string_type"; loc := [name];
                     msg := "Input should be a valid string"; input_value := v |}
  end.

(** The members of [Literal["low", "medium", "high"]]. *)
Definition priority_literals : list string := ["low"; "medium"; "high"].

(** A required [Literal["low", "medium", "high"]] field. *)
Definition validate_priority (data : gmap string json) : ErrorDetails + string :=
  match data !! "priority" with
  | None => inl {| type_ := "missing"; loc := ["priority"];
                   msg := "Field required"; input_value := JDict data |}
  | Some (JStr s) =>
      if bool_decide (s ∈ priority_literals) then inr s
      else inl {| type_ := "literal_error"; loc := ["priority"];
                  msg := "Input should be 'low', 'medium' or 'high'";
                  input_value := JStr s |}
  | Some v => inl {| type_ := "literal_error"; loc := ["priority"];
                     msg := "Input should be 'low', 'medium' or 'high'";
                     input_value := v |}
  end.

(** A [str | None] field whose default is [None]. *)
Definition validate_due_date (data : gmap string json) : ErrorDetails + option string :=
  match data !! "due_date" with
  | None | Some JNull => inr None
  | Some (JStr s) => inr (Some s)
  | Some v => inl {| type_ := "string_type"; loc := ["due_date"];
                     msg := "Input should be a valid string"; input_value := v |}
  end.

(** The errors of one field, as a list. *)
Definition errors_of {A : Type} (r : ErrorDetails + A) : list ErrorDetails :=
  match r with
  | inl e => [e]
  | inr _ => []
  end.

(** The constructor call of [TaskAnalysis] with the entries of [data] as
    keyword arguments: the fields are validated in declaration order,
    all errors are collected, keys that are no field of the class are
    ignored.  [inl] carries the errors of the [ValidationError]. *)
Definition TaskAnalysis_init (data : gmap string json) : list ErrorDetails + TaskAnalysis :=
  let d := validate_required_str "description" data in
  let p := validate_priority data in
  let dd := validate_due_date data in
  let c := validate_required_str "category" data in
  match d, p, dd, c with
  | inr d', inr p', inr dd', inr c' =>
      inr {| description := d'; priority := p'; due_date := dd'; category := c' |}
  | _, _, _, _ => inl (errors_of d ++ errors_of p ++ errors_of dd ++ errors_of c)
  end.

(** [model_dump()]: the dictionary of the fields, in declaration order. *)
Definition model_dump (t : TaskAnalysis) : list (string * json) :=
  [ ("description", JStr (description t));
    ("priority", JStr (priority t));
    ("due_date", match due_date t with Some s => JStr s | None => JNull end);
    ("category", JStr (category t)) ].

(** ** The collaborators of the handler *)

(** A role-tagged message, the request sent to the completion client and
    what the handler reads of its response. *)
Record Message : Type := { role : string; content : string }.
Record Request : Type := { model : string; input : list Message }.
Record Response : Type := { output_text : string }.

(** Everything the handler reads from outside.  A call that raises
    returns [inl] with the text of the exception ([str(exc)]).
    - [environ]: the process environment;
    - [responses_create]: [client.responses.create];
    - [json_loads]: [json.loads];
    - [fromisoformat]: [datetime.fromisoformat], whose value the handler
      discards; [inl] is the text of its [ValueError]. *)
Record World : Type := {
  environ : gmap string string;
  responses_create : Request → string + Response;
  json_loads : string → string + json;
  fromisoformat : string → string + ()
}.

(** [os.getenv] *)
Definition os_getenv (W : World) (name : string) : option string := environ W !! name.

(** Truth value of an optional string: [None] and the empty string are
    false. *)
Definition truthy (o : option string) : bool :=
  match o with
  | None | Some "" => false
  | Some _ => true
  end.

(** ** Exceptions, results and the handler's monad *)

(** The [detail] of an [HTTPException]: a message, or the decoded list of
    the errors of a [ValidationError]. *)
Inductive Detail : Type :=
| DetailStr (s : string)
| DetailErrors (errors : list ErrorDetails).

(** The exceptions that leave the handler.  [ValueError] and
    [UnicodeEncodeError] are raised inside the libraries, their texts are
    not kept. *)
Inductive exception : Type :=
| HTTPException (status_code : Z) (detail : Detail)
| AttributeError (text : string)
| ValueError
| UnicodeEncodeError.

Inductive result (A : Type) : Type :=
| Returned (a : A)
| Raised (e : exception).
Arguments Returned {A} a.
Arguments Raised {A} e.

(** The state threaded through a run is the log of the outbound calls made
    so far, oldest first. *)
Definition M (A : Type) : Type := list Request → result A * list Request.

#[global] Instance M_ret : MRet M := λ A a log, (Returned a, log).

#[global] Instance M_bind : MBind M := λ A B f m log,
  match m log with
  | (Returned a, log') => f a log'
  | (Raised e, log') => (Raised e, log')
  end.

Definition raise {A : Type} (e : exception) : M A := λ log, (Raised e, log).

(** A call of a library function inside [try], with one [except] clause
    that turns what the call raised into the exception to raise. *)
Definition try_except {E A : Type} (call : E + A) (handler : E → exception) : M A :=
  match call with
  | inr a => mret a
  | inl exc => raise (handler exc)
  end.

(** A call outside every [try]: what it raises leaves the handler. *)
Definition call {A : Type} (r : exception + A) : M A :=
  match r with
  | inr a => mret a
  | inl e => raise e
  end.

(** The outbound call: it is logged whether it returns or raises. *)
Definition call_responses_create (W : World) (req : Request) : M (string + Response) :=
  λ log, (Returned (responses_create W req), log ++ [req]).

(** ** The system prompt (lines 30-56) *)

Definition nl : string := String "010"%char "".
Definition dq : string := String "034"%char "".
Definition quoted (s : string) : string := dq +:+ s +:+ dq.

Definition SYSTEM_PROMPT : string :=
  String.concat nl [
    "You are a task parsing assistant. Extract structured fields from the user input.";
    "";
    "Return ONLY valid JSON with the following fields:";
    "- description: short task summary";
    "- priority: one of low/medium/high";
    "- due_date: ISO-8601 datetime (e.g., 2026-02-10T15:00:00). If not provided, use null.";
    "- category: short category label (e.g., work, personal, study). If not provided, use "
      +:+ quoted "general" +:+ ".";
    "";
    "Rules & Defaults:";
    "- If priority is missing, set it to " +:+ quoted "medium" +:+ ".";
    "- If due_date is missing, set it to null.";
    "- If category is missing, set it to " +:+ quoted "general" +:+ ".";
    "- Use the user's locale context if time is relative (e.g., "
      +:+ quoted "tomorrow at 3pm" +:+ ").";
    "- Do not include any extra keys.";
    "";
    "API call example (OpenAI Python client):";
    "client.responses.create(";
    "  model=" +:+ quoted "gpt-4.1-mini" +:+ ",";
    "  input=[{" +:+ quoted "role" +:+ ": " +:+ quoted "system" +:+ ", "
      +:+ quoted "content" +:+ ": SYSTEM_PROMPT},";
    "         {" +:+ quoted "role" +:+ ": " +:+ quoted "user" +:+ ", "
      +:+ quoted "content" +:+ ": text}]";
    ")";
    "";
    "Error handling guidance:";
    "- If the model output is not valid JSON, return a 502 with a clear error.";
    "- If required fields are missing, apply defaults or return 422."
  ].

(** ** The handler (lines 59-103) *)

(** A [JSONResponse]: its status and the content it was built from. *)
Record JSONResponse : Type := {
  response_status : Z;
  response_content : list (string * json)
}.

(** [JSONResponse(content=...)]: the constructor renders the content at
    once, with [json.dumps(..., allow_nan=False)] and then
    [.encode("utf-8")]: the first raises [ValueError] on an infinity or a
    NaN, the second [UnicodeEncodeError] on a surrogate.  The status is
    the default one, 200. *)
Definition JSONResponse_init (body : list (string * json)) : exception + JSONResponse :=
  if negb (forallb (λ kv, json_finite kv.2) body) then inl ValueError
  else if negb (forallb (λ kv, encodable kv.1 && json_encodable kv.2) body)
  then inl UnicodeEncodeError
  else inr {| response_status := 200; response_content := body |}.

(** [json.loads(exc.json())] on line 95: the errors, decoded from their
    JSON text.  [exc.json()] writes the input of every error into that
    text and raises [ValueError] when one of them holds a surrogate. *)
Definition echo_encodable (errors : list ErrorDetails) : bool :=
  forallb (λ e, json_encodable (input_value e)) errors.

Definition errors_json (errors : list ErrorDetails) : exception + list ErrorDetails :=
  if echo_encodable errors then inr errors else inl ValueError.

(** The [except] clause of lines 94-95: the exception that leaves it. *)
Definition except_ValidationError (errors : list ErrorDetails) : exception :=
  match errors_json errors with
  | inr detail => HTTPException 422 (DetailErrors detail)
  | inl e => e
  end.

(** [data.get]: only a [dict] has the attribute. *)
Definition get_attr_get (data : json) : M (gmap string json) :=
  match data with
  | JDict fields => mret fields
  | v => raise (AttributeError ("'" +:+ type_name v +:+ "' object has no attribute 'get'"))
  end.

(** The keyword arguments of the call on lines 67-73. *)
Definition create_kwargs (payload : TaskRequest) : Request :=
  {| model := "gpt-4.1-mini";
     input := [ {| role := "system"; content := SYSTEM_PROMPT |};
                {| role := "user"; content := text payload |} ] |}.

Definition analyze_task (W : World) (payload : TaskRequest) : M JSONResponse :=
  (if negb (truthy (os_getenv W "OPENAI_API_KEY"))
   then raise (HTTPException 500
          (DetailStr "OPENAI_API_KEY is not set. Configure it to call the OpenAI API."))
   else mret ());;
  called ← call_responses_create W (create_kwargs payload);
  response ← try_except called
               (λ exc, HTTPException 502 (DetailStr ("OpenAI API error: " +:+ exc)));
  data ← try_except (json_loads W (output_text response))
           (λ exc, HTTPException 502 (DetailStr ("Invalid JSON from model: " +:+ exc)));
  fields ← get_attr_get data;
  let data := apply_defaults fields in
  validated ← try_except (TaskAnalysis_init data) except_ValidationError;
  try_except
    (match due_date validated with
     | Some s => fromisoformat W s
     | None => inr ()
     end)
    (λ exc, HTTPException 422 (DetailStr ("Invalid due_date: " +:+ exc)));;
  call (JSONResponse_init (model_dump validated)).

(** ** The rules of the specification, for comparison *)

(** The defaulting rules as the specification words them: [priority] is
    set when absent or null, [category] when absent, null or empty,
    [due_date] only when absent. *)
Definition spec_defaults (data : gmap string json) : gmap string json :=
  let data1 :=
    match data !! "priority" with
    | None | Some JNull => <["priority" := JStr "medium"]> data
    | Some _ => data
    end in
  let data2 :=
    match data1 !! "category" with
    | None | Some JNull | Some (JStr "") => <["category" := JStr "general"]> data1
    | Some _ => data1
    end in
  match data2 !! "due_date" with
  | None => <["due_date" := JNull]> data2
  | Some _ => data2
  end.

(** The names of the fields of [TaskAnalysis], in declaration order. *)
Definition schema_fields : list string :=
  ["description"; "priority"; "due_date"; "category"].

(** The constraint each field declares, read off the class: [description]
    and [category] are strings, [priority] is one of the three literals,
    [due_date] is a string, null or absent. *)
Definition field_ok (data : gmap string json) (name : string) : bool :=
  if decide (name = "priority") then
    match data !! name with
    | Some (JStr s) => bool_decide (s ∈ priority_literals)
    | _ => false
    end
  else if decide (name = "due_date") then
    match data !! name with
    | None | Some JNull | Some (JStr _) => true
    | Some _ => false
    end
  else
    match data !! name with
    | Some (JStr _) => true
    | _ => false
    end.

Definition violated_fields (data : gmap string json) : list string :=
  filter (λ name, field_ok data name = false) schema_fields.

(** The strings of a validated record can all be encoded. *)
Definition dump_encodable (t : TaskAnalysis) : bool :=
  encodable (description t) && encodable (priority t) &&
  match due_date t with Some s => encodable s | None => true end &&
  encodable (category t).

(** A world that differs from [W] in the decoder only. *)
Definition with_json_loads (W : World) (decoder : string → string + json) : World :=
  {| environ := environ W;
     responses_create := responses_create W;
     json_loads := decoder;
     fromisoformat := fromisoformat W |}.

(** ** The ways a run of the handler ends

    [stops W payload r calls]: the handler ends with [r] after the outbound
    calls [calls].  One constructor per exit of the function, in source
    order; [stop_attribute] is the exit through the [AttributeError] of
    [data.get] on line 85, outside every [try], [stop_schema] the exit
    through the [except] clause of line 95, with the 422 or with the
    [ValueError] of [exc.json()], and [stop_render] the exit through what
    the constructor of the response raises on line 103. *)
Inductive stops (W : World) (payload : TaskRequest)
  : result JSONResponse → list Request → Prop :=
| stop_credential :
    truthy (os_getenv W "OPENAI_API_KEY") = false →
    stops W payload
      (Raised (HTTPException 500
         (DetailStr "OPENAI_API_KEY is not set. Configure it to call the OpenAI API.")))
      []
| stop_call exc :
    truthy (os_getenv W "OPENAI_API_KEY") = true →
    responses_create W (create_kwargs payload) = inl exc →
    stops W payload
      (Raised (HTTPException 502 (DetailStr ("OpenAI API error: " +:+ exc))))
      [create_kwargs payload]
| stop_decode response exc :
    truthy (os_getenv W "OPENAI_API_KEY") = true →
    responses_create W (create_kwargs payload) = inr response →
    json_loads W (output_text response) = inl exc →
    stops W payload
      (Raised (HTTPException 502 (DetailStr ("Invalid JSON from model: " +:+ exc))))
      [create_kwargs payload]
| stop_attribute response v :
    truthy (os_getenv W "OPENAI_API_KEY") = true →
    responses_create W (create_kwargs payload) = inr response →
    json_loads W (output_text response) = inr v →
    (∀ fields, v ≠ JDict fields) →
    stops W payload
      (Raised (AttributeError ("'" +:+ type_name v +:+ "' object has no attribute 'get'")))
      [create_kwargs payload]
| stop_schema response fields errors :
    truthy (os_getenv W "OPENAI_API_KEY") = true →
    responses_create W (create_kwargs payload) = inr response →
    json_loads W (output_text response) = inr (JDict fields) →
    TaskAnalysis_init (apply_defaults fields) = inl errors →
    stops W payload
      (Raised (except_ValidationError errors))
      [create_kwargs payload]
| stop_due_date response fields validated s exc :
    truthy (os_getenv W "OPENAI_API_KEY") = true →
    responses_create W (create_kwargs payload) = inr response →
    json_loads W (output_text response) = inr (JDict fields) →
    TaskAnalysis_init (apply_defaults fields) = inr validated →
    due_date validated = Some s →
    fromisoformat W s = inl exc →
    stops W payload
      (Raised (HTTPException 422 (DetailStr ("Invalid due_date: " +:+ exc))))
      [create_kwargs payload]
| stop_render response fields validated e :
    truthy (os_getenv W "OPENAI_API_KEY") = true →
    responses_create W (create_kwargs payload) = inr response →
    json_loads W (output_text response) = inr (JDict fields) →
    TaskAnalysis_init (apply_defaults fields) = inr validated →
    (∀ s, due_date validated = Some s → fromisoformat W s = inr ()) →
    JSONResponse_init (model_dump validated) = inl e →
    stops W payload (Raised e) [create_kwargs payload]
| stop_success response fields validated r :
    truthy (os_getenv W "OPENAI_API_KEY") = true →
    responses_create W (create_kwargs payload) = inr response →
    json_loads W (output_text response) = inr (JDict fields) →
    TaskAnalysis_init (apply_defaults fields) = inr validated →
    (∀ s, due_date validated = Some s → fromisoformat W s = inr ()) →
    JSONResponse_init (model_dump validated) = inr r →
    stops W payload (Returned r) [create_kwargs payload].

(** ** Scripted collaborators

    Stand-ins for the collaborators, to run the handler on concrete
    exchanges. *)
Module Scenario.

Definition is_digit (c : ascii) : bool :=
  (Nat.leb 48 (nat_of_ascii c) && Nat.leb (nat_of_ascii c) 57)%bool.

(** [shape pattern s]: [s] has the length of [pattern], a digit where
    the pattern has [d], any character where it has [?] and the
    pattern's character elsewhere. *)
Fixpoint shape (pattern s : string) : bool :=
  match pattern, s with
  | "", "" => true
  | String p pattern', String c s' =>
      (if Ascii.eqb p "d" then is_digit c
       else if Ascii.eqb p "?" then true
       else Ascii.eqb p c) && shape pattern' s'
  | _, _ => false
  end.

(** A date-time decoder for the extended format with seconds. *)
Definition iso_seconds (s : string) : string + () :=
  if shape "dddd-dd-dd?dd:dd:dd" s then inr ()
  else inl ("Invalid isoformat string: '" +:+ s +:+ "'").

Definition obj (entries : list string) : string :=
  "{" +:+ String.concat "," entries +:+ "}".
Definition entry (key value : string) : string := quoted key +:+ ":" +:+ value.

Definition report_text : string :=
  obj [ entry "description" (quoted "Finish the report");
        entry "priority" (quoted "high");
        entry "due_date" (quoted "2026-02-11T15:00:00");
        entry "category" (quoted "work") ].
Definition report : gmap string json :=
  {[ "description" := JStr "Finish the report"; "priority" := JStr "high";
     "due_date" := JStr "2026-02-11T15:00:00"; "category" := JStr "work" ]}.

Definition bare_text : string := obj [ entry "description" (quoted "Buy milk") ].
Definition bare : gmap string json := {[ "description" := JStr "Buy milk" ]}.

Definition urgent_text : string :=
  obj [ entry "description" (quoted "Call Ana"); entry "priority" (quoted "urgent") ].
Definition urgent : gmap string json :=
  {[ "description" := JStr "Call Ana"; "priority" := JStr "urgent" ]}.

Definition tuesday_text : string :=
  obj [ entry "description" (quoted "Call Ana"); entry "due_date" (quoted "next tuesday") ].
Definition tuesday : gmap string json :=
  {[ "description" := JStr "Call Ana"; "due_date" := JStr "next tuesday" ]}.

Definition noted_text : string :=
  obj [ entry "description" (quoted "Buy milk"); entry "note" (quoted "x") ].
Definition noted : gmap string json :=
  {[ "description" := JStr "Buy milk"; "note" := JStr "x" ]}.

(** A decoder that knows the texts above and the empty list, and rejects
    everything else. *)
Definition decoded : list (string * json) :=
  [ (report_text, JDict report); (bare_text, JDict bare);
    (urgent_text, JDict urgent); (tuesday_text, JDict tuesday);
    (noted_text, JDict noted); ("[]", JList []) ].

Fixpoint lookup_text (table : list (string * json)) (s : string) : string + json :=
  match table with
  | [] => inl "Expecting value: line 1 column 1 (char 0)"
  | (t, v) :: table' => if String.eqb t s then inr v else lookup_text table' s
  end.

(** The world in which the credential is [key] (unset when [None]) and
    the client answers every request with [reply]. *)
Definition world (key : option string) (reply : string + string) : World :=
  {| environ := match key with
                | Some k => {[ "OPENAI_API_KEY" := k ]}
                | None => ∅
                end;
     responses_create := λ _, match reply with
                              | inl exc => inl exc
                              | inr t => inr {| output_text := t |}
                              end;
     json_loads := lookup_text decoded;
     fromisoformat := iso_seconds |}.

Definition ask : TaskRequest :=
  {| text := "Finish the report by tomorrow 3pm, high priority" |}.

End Scenario.

(** ** The route and the schema of its body (lines 15-16 and 59-60)

    The handler is registered for [POST /analyze-task] with a parameter of
    class [TaskRequest]: the framework validates the JSON object of the
    body against the class before it calls the handler. *)

(** The constructor call of [TaskRequest] with the entries of [data] as
    keyword arguments: [text] is a required [str] with [min_length=1].  To
    measure it the validator reads the string as Unicode text, which fails
    on a surrogate. *)
Definition TaskRequest_init (data : gmap string json) : list ErrorDetails + TaskRequest :=
  match data !! "text" with
  | None => inl [ {| type_ := "missing"; loc := ["text"];
                     msg := "Field required"; input_value := JDict data |} ]
  | Some (JStr s) =>
      if negb (encodable s)
      then inl [ {| type_ := "string_unicode"; loc := ["text"];
                    msg := "Input should be a valid string, unable to parse raw data as a unicode string";
                    input_value := JStr s |} ]
      else if Nat.ltb (String.length s) 1
      then inl [ {| type_ := "string_too_short"; loc := ["text"];
                    msg := "String should have at least 1 character";
                    input_value := JStr s |} ]
      else inr {| text := s |}
  | Some v => inl [ {| type_ := "string_type"; loc := ["text"];
                       msg := "Input should be a valid string"; input_value := v |} ]
  end.

(** An error of the body is located under ["body"]. *)
Definition in_body (e : ErrorDetails) : ErrorDetails :=
  {| type_ := type_ e; loc := "body" :: loc e; msg := msg e;
     input_value := input_value e |}.

(** What the route does with a body: it raises the errors of the body
    (the handler is not called), or it calls the handler. *)
Inductive served : Type :=
| RequestValidationError (errors : list ErrorDetails)
| Handled (r : result JSONResponse).

Definition post_analyze_task (W : World) (body : gmap string json)
  : list Request → served * list Request :=
  λ log,
    match TaskRequest_init body with
    | inl errors => (RequestValidationError (in_body <$> errors), log)
    | inr payload =>
        let '(r, log') := analyze_task W payload log in (Handled r, log')
    end.

(** A world that differs from [W] in the date-time decoder only. *)
Definition with_fromisoformat (W : World) (decoder : string → string + ()) : World :=
  {| environ := environ W;
     responses_create := responses_create W;
     json_loads := json_loads W;
     fromisoformat := decoder |}.

(** The dictionary with the entries of an association list. *)
Definition dict_of (entries : list (string * json)) : gmap string json :=
  list_to_map entries.

(** Bodies and collaborator objects for concrete exchanges. *)
Module Bodies.

Definition asking : gmap string json :=
  {[ "text" := JStr "Finish the report by tomorrow 3pm, high priority" ]}.

Definition report_record : TaskAnalysis :=
  {| description := "Finish the report"; priority := "high";
     due_date := Some "2026-02-11T15:00:00"; category := "work" |}.

Definition vague : gmap string json :=
  {[ "priority" := JStr "urgent"; "due_date" := JStr "next tuesday" ]}.
Definition vague_text : string :=
  Scenario.obj [ Scenario.entry "priority" (quoted "urgent");
                 Scenario.entry "due_date" (quoted "next tuesday") ].

End Bodies.

(** ** The bytes of a response

    What the constructor of the response writes on line 103:
    [json.dumps] with the separators [","] and [":"] and [ensure_ascii]
    off, then UTF-8, which leaves the bytes of an encodable string as they
    are. *)

Definition bs : string := String "092"%char "".

Definition hex_digit (n : nat) : ascii :=
  nth n (String.list_ascii_of_string "0123456789abcdef") "0"%char.

(** One character inside a JSON string: the quote, the backslash and the
    control characters are escaped, everything else is written as it is. *)
Definition escape_char (c : ascii) : string :=
  let n := nat_of_ascii c in
  if Nat.eqb n 34 then bs +:+ dq
  else if Nat.eqb n 92 then bs +:+ bs
  else if Nat.eqb n 8 then bs +:+ "b"
  else if Nat.eqb n 12 then bs +:+ "f"
  else if Nat.eqb n 10 then bs +:+ "n"
  else if Nat.eqb n 13 then bs +:+ "r"
  else if Nat.eqb n 9 then bs +:+ "t"
  else if Nat.ltb n 32
  then bs +:+ "u00" +:+ String (hex_digit (n / 16)) (String (hex_digit (n mod 16)) "")
  else String c "".

Fixpoint json_escape (s : string) : string :=
  match s with
  | "" => ""
  | String c s' => escape_char c +:+ json_escape s'
  end.

Definition dumps_str (s : string) : string := dq +:+ json_escape s +:+ dq.

(** A value that is [None], a [bool] or a [str]; the dump of a
    [TaskAnalysis] holds no other value. *)
Definition dumps_flat (v : json) : option string :=
  match v with
  | JNull => Some "null"
  | JBool true => Some "true"
  | JBool false => Some "false"
  | JStr s => Some (dumps_str s)
  | _ => None
  end.

Fixpoint dumps_items (content : list (string * json)) : option (list string) :=
  match content with
  | [] => Some []
  | (k, v) :: content' =>
      match dumps_flat v, dumps_items content' with
      | Some b, Some items => Some ((dumps_str k +:+ ":" +:+ b) :: items)
      | _, _ => None
      end
  end.

(** The bytes of a dictionary of such values, in the order of its keys. *)
Definition render (content : list (string * json)) : option string :=
  match dumps_items content with
  | Some items => Some ("{" +:+ String.concat "," items +:+ "}")
  | None => None
  end.

(** The bytes a run hands to the caller: those of its response. *)
Definition output_bytes (r : result JSONResponse) : option string :=
  match r with
  | Returned response => render (response_content response)
  | Raised _ => None
  end.

(** ** Repeated invocations

    The collaborator is a service outside the program: its reply to a
    request may depend on the requests it has received before. *)

(** A world that differs from [W] in the client only. *)
Definition with_responses_create (W : World) (client : Request → string + Response)
  : World :=
  {| environ := environ W;
     responses_create := client;
     json_loads := json_loads W;
     fromisoformat := fromisoformat W |}.

(** One invocation of the handler against a collaborator that has
    received the calls of the log. *)
Definition invoke (W : World) (collaborator : list Request → Request → string + Response)
    (payload : TaskRequest) : M JSONResponse :=
  λ log, analyze_task (with_responses_create W (collaborator log)) payload log.

(** Two invocations in a row with the same request: their outcomes. *)
Definition invoke_twice (W : World)
    (collaborator : list Request → Request → string + Response)
    (payload : TaskRequest) (log : list Request)
  : result JSONResponse * result JSONResponse :=
  let '(r1, log1) := invoke W collaborator payload log in
  let '(r2, _) := invoke W collaborator payload log1 in
  (r1, r2).

(** ** The standards the specification names, for comparison *)





(** Collaborator objects with the values the libraries are lenient on. *)
Module Lenient.

(** A lone surrogate, U+D800. *)
Definition lone : string := String "237" (String "160" (String "128" "")).

Definition stray_priority : gmap string json :=
  {[ "description" := JStr "Call Ana"; "priority" := JStr lone ]}.
Definition stray_priority_text : string :=
  Scenario.obj [ Scenario.entry "description" (quoted "Call Ana");
                 Scenario.entry "priority" (quoted (bs +:+ "ud800")) ].

Definition stray_description : gmap string json := {[ "description" := JStr lone ]}.
Definition stray_description_text : string :=
  Scenario.obj [ Scenario.entry "description" (quoted (bs +:+ "ud800")) ].



(** A world whose client answers [reply] and whose decoder reads it as
    [value]. *)
Definition world (reply : string) (value : json) : World :=
  with_json_loads (Scenario.world (Some "sk-test") (inr reply))
    (λ s, if String.eqb s reply then inr value
          else inl "Expecting value: line 1 column 1 (char 0)").

(** A collaborator that answers the first call with the report and every
    later call with the bare object. *)
Definition moody (history : list Request) (req : Request) : string + Response :=
  match history with
  | [] => inr {| output_text := Scenario.report_text |}
  | _ => inr {| output_text := Scenario.bare_text |}
  end.

(** A collaborator that answers every call with the report. *)
Definition steady (history : list Request) (req : Request) : string + Response :=
  inr {| output_text := Scenario.report_text |}.

End Lenient.

(** * Properties *)

Arguments create_kwargs : simpl never.
Arguments apply_defaults : simpl never.
Arguments TaskAnalysis_init : simpl never.

(** ** Running the handler, stage by stage *)

(** Unfold the handler and the binds of its monad, then run it as far as
    the hypotheses in the context decide the calls. *)
Ltac run_handler :=
  unfold analyze_task, mbind, M_bind, call_responses_create;
  repeat (cbn [negb mret M_ret raise try_except call get_attr_get];
          match goal with
          | H : truthy _ = _ |- _ => rewrite H
          | H : responses_create _ _ = _ |- _ => rewrite H
          | H : json_loads _ _ = _ |- _ => rewrite H
          | H : TaskAnalysis_init _ = _ |- _ => rewrite H
          | H : due_date _ = _ |- _ => rewrite H
          | H : fromisoformat _ _ = _ |- _ => rewrite H
          | H : JSONResponse_init _ = _ |- _ => rewrite H
          end);
  cbn [negb mret M_ret raise try_except call get_attr_get].

Section Stages.
Variable W : World.
Variable payload : TaskRequest.
Variable log : list Request.

Lemma stage_credential :
  truthy (os_getenv W "OPENAI_API_KEY") = false →
  analyze_task W payload log =
    (Raised (HTTPException 500
       (DetailStr "OPENAI_API_KEY is not set. Configure it to call the OpenAI API.")),
     log).
Proof. intros Hkey. by run_handler. Qed.

Hypothesis Hkey : truthy (os_getenv W "OPENAI_API_KEY") = true.

Lemma stage_call exc :
  responses_create W (create_kwargs payload) = inl exc →
  analyze_task W payload log =
    (Raised (HTTPException 502 (DetailStr ("OpenAI API error: " +:+ exc))),
     log ++ [create_kwargs payload]).
Proof. intros Hcall. by run_handler. Qed.

Variable response : Response.
Hypothesis Hcall : responses_create W (create_kwargs payload) = inr response.

Lemma stage_decode exc :
  json_loads W (output_text response) = inl exc →
  analyze_task W payload log =
    (Raised (HTTPException 502 (DetailStr ("Invalid JSON from model: " +:+ exc))),
     log ++ [create_kwargs payload]).
Proof. intros Hdec. by run_handler. Qed.

Lemma stage_attribute v :
  json_loads W (output_text response) = inr v →
  (∀ fields, v ≠ JDict fields) →
  analyze_task W payload log =
    (Raised (AttributeError ("'" +:+ type_name v +:+ "' object has no attribute 'get'")),
     log ++ [create_kwargs payload]).
Proof.
  intros Hdec Hv. run_handler.
  destruct v; try reflexivity. by destruct (Hv fields).
Qed.

Variable fields : gmap string json.
Hypothesis Hdec : json_loads W (output_text response) = inr (JDict fields).

Lemma stage_schema errors :
  TaskAnalysis_init (apply_defaults fields) = inl errors →
  analyze_task W payload log =
    (Raised (except_ValidationError errors), log ++ [create_kwargs payload]).
Proof. intros Hval. by run_handler. Qed.

Variable validated : TaskAnalysis.
Hypothesis Hval : TaskAnalysis_init (apply_defaults fields) = inr validated.

Lemma stage_due_date s exc :
  due_date validated = Some s →
  fromisoformat W s = inl exc →
  analyze_task W payload log =
    (Raised (HTTPException 422 (DetailStr ("Invalid due_date: " +:+ exc))),
     log ++ [create_kwargs payload]).
Proof. intros Hdue Hiso. by run_handler. Qed.

Lemma stage_render e :
  (∀ s, due_date validated = Some s → fromisoformat W s = inr ()) →
  JSONResponse_init (model_dump validated) = inl e →
  analyze_task W payload log = (Raised e, log ++ [create_kwargs payload]).
Proof.
  intros Hiso Hrender. destruct (due_date validated) as [s|] eqn:Hdue.
  - specialize (Hiso s eq_refl). by run_handler.
  - by run_handler.
Qed.

Lemma stage_success r :
  (∀ s, due_date validated = Some s → fromisoformat W s = inr ()) →
  JSONResponse_init (model_dump validated) = inr r →
  analyze_task W payload log = (Returned r, log ++ [create_kwargs payload]).
Proof.
  intros Hiso Hrender. destruct (due_date validated) as [s|] eqn:Hdue.
  - specialize (Hiso s eq_refl). by run_handler.
  - by run_handler.
Qed.
End Stages.

Lemma dict_or_not (v : json) :
  (∃ fields, v = JDict fields) ∨ (∀ fields, v ≠ JDict fields).
Proof. destruct v; eauto; by right. Qed.

(** Every run ends in one of the ways of [stops], whatever was logged
    before, and appends its own calls to the log. *)
Lemma analyze_task_stops (W : World) (payload : TaskRequest) :
  ∃ r calls, stops W payload r calls ∧
             ∀ log, analyze_task W payload log = (r, log ++ calls).
Proof.
  destruct (truthy (os_getenv W "OPENAI_API_KEY")) eqn:Hkey; last first.
  { eexists _, []. split; [by constructor|].
    intros log. rewrite app_nil_r. by apply stage_credential. }
  destruct (responses_create W (create_kwargs payload)) as [exc|response] eqn:Hcall.
  { eexists _, _. split; [by eapply stop_call|]. intros log. by apply stage_call. }
  destruct (json_loads W (output_text response)) as [exc|v] eqn:Hdec.
  { eexists _, _. split; [by eapply stop_decode|]. intros log. by eapply stage_decode. }
  destruct (dict_or_not v) as [[fields ->]|Hv]; last first.
  { eexists _, _. split; [by eapply stop_attribute|].
    intros log. by eapply stage_attribute. }
  destruct (TaskAnalysis_init (apply_defaults fields)) as [errors|validated] eqn:Hval.
  { eexists _, _. split; [by eapply stop_schema|]. intros log. by eapply stage_schema. }
  assert ((∃ s exc, due_date validated = Some s ∧ fromisoformat W s = inl exc) ∨
          (∀ s, due_date validated = Some s → fromisoformat W s = inr ())) as [Hbad|Hiso].
  { destruct (due_date validated) as [s|]; [|by right].
    destruct (fromisoformat W s) as [exc|[]] eqn:Hiso; [left; eauto|].
    right. by intros ? [= <-]. }
  { destruct Hbad as (s & exc & Hdue & Hiso).
    eexists _, _. split; [by eapply stop_due_date|].
    intros log. by eapply stage_due_date. }
  destruct (JSONResponse_init (model_dump validated)) as [e|r] eqn:Hrender.
  { eexists _, _. split; [by eapply stop_render|].
    intros log. by eapply stage_render. }
  eexists _, _. split; [by eapply stop_success|].
  intros log. by eapply stage_success.
Qed.

(** The outcome and the log of a run, read off [stops]. *)
Lemma analyze_task_inv (W : World) (payload : TaskRequest) log r log' :
  analyze_task W payload log = (r, log') →
  ∃ calls, stops W payload r calls ∧ log' = log ++ calls.
Proof.
  intros Hrun. destruct (analyze_task_stops W payload) as (r0 & calls & Hstops & Heq).
  rewrite Heq in Hrun. injection Hrun as <- <-. eauto.
Qed.

(** The two ways the [except] clause of line 95 ends. *)
Lemma except_ValidationError_cases (errors : list ErrorDetails) :
  except_ValidationError errors =
    if echo_encodable errors then HTTPException 422 (DetailErrors errors) else ValueError.
Proof.
  unfold except_ValidationError, errors_json. by destruct (echo_encodable errors).
Qed.

(** The constructor of the response on the dump of a validated record. *)
Lemma JSONResponse_init_model_dump (t : TaskAnalysis) :
  JSONResponse_init (model_dump t) =
    if dump_encodable t
    then inr {| response_status := 200; response_content := model_dump t |}
    else inl UnicodeEncodeError.
Proof.
  unfold JSONResponse_init, dump_encodable.
  destruct t as [d p [s|] c]; cbn;
    destruct (encodable d), (encodable p), (encodable c); try destruct (encodable s);
    reflexivity.
Qed.

(** ** The defaulting step *)

Section Defaulting.
Variable data : gmap string json.

Lemma lookup_default_priority k :
  default_priority data !! k =
    if decide (k = "priority")
    then (if is_None (data !! "priority") then Some (JStr "medium") else data !! "priority")
    else data !! k.
Proof.
  unfold default_priority. case_decide as Hk; [subst k|];
    destruct (is_None (data !! "priority")); by simplify_map_eq.
Qed.

Lemma lookup_default_category k :
  default_category data !! k =
    if decide (k = "category")
    then (if in_None_or_empty (data !! "category")
          then Some (JStr "general") else data !! "category")
    else data !! k.
Proof.
  unfold default_category. case_decide as Hk; [subst k|];
    destruct (in_None_or_empty (data !! "category")); by simplify_map_eq.
Qed.

Lemma lookup_default_due_date k :
  default_due_date data !! k =
    if decide (k = "due_date")
    then (if is_None (data !! "due_date") then Some JNull else data !! "due_date")
    else data !! k.
Proof.
  unfold default_due_date. case_decide as Hk; [subst k|];
    destruct (is_None (data !! "due_date")); by simplify_map_eq.
Qed.
End Defaulting.

Lemma lookup_apply_defaults (data : gmap string json) (k : string) :
  apply_defaults data !! k =
    if decide (k = "priority")
    then (if is_None (data !! "priority") then Some (JStr "medium") else data !! "priority")
    else if decide (k = "category")
    then (if in_None_or_empty (data !! "category")
          then Some (JStr "general") else data !! "category")
    else if decide (k = "due_date")
    then (if is_None (data !! "due_date") then Some JNull else data !! "due_date")
    else data !! k.
Proof.
  unfold apply_defaults.
  rewrite lookup_default_due_date, !lookup_default_category, !lookup_default_priority.
  repeat case_decide; subst; try done.
Qed.

(** The first two rules of [spec_defaults] are the first two assignments. *)
Lemma spec_defaults_unfold (data : gmap string json) :
  spec_defaults data =
    let data2 := default_category (default_priority data) in
    match data2 !! "due_date" with
    | None => <["due_date" := JNull]> data2
    | Some _ => data2
    end.
Proof.
  unfold spec_defaults, default_category, default_priority, is_None, in_None_or_empty.
  cbv zeta.
  destruct (data !! "priority") as [[]|];
    destruct (_ !! "category") as [[| | | |[|]| |]|]; reflexivity.
Qed.

(** The guard on [due_date] also fires on an explicit null, where the
    assignment changes nothing: the step computes what the rules say. *)
Lemma apply_defaults_spec (data : gmap string json) :
  apply_defaults data = spec_defaults data.
Proof.
  rewrite spec_defaults_unfold. unfold apply_defaults, default_due_date, is_None.
  cbv zeta. generalize (default_category (default_priority data)). intros m.
  destruct (m !! "due_date") as [[]|] eqn:Hdue; try reflexivity.
  by apply insert_id.
Qed.

(** ** Schema validation *)

Section Validation.
Variable data : gmap string json.

Lemma TaskAnalysis_init_inr t :
  TaskAnalysis_init data = inr t →
  validate_required_str "description" data = inr (description t) ∧
  validate_priority data = inr (priority t) ∧
  validate_due_date data = inr (due_date t) ∧
  validate_required_str "category" data = inr (category t).
Proof.
  unfold TaskAnalysis_init. cbv zeta.
  destruct (validate_required_str "description" data),
    (validate_priority data), (validate_due_date data),
    (validate_required_str "category" data); intros [= <-]; done.
Qed.

Lemma TaskAnalysis_init_inl errors :
  TaskAnalysis_init data = inl errors →
  errors = errors_of (validate_required_str "description" data)
           ++ errors_of (validate_priority data)
           ++ errors_of (validate_due_date data)
           ++ errors_of (validate_required_str "category" data).
Proof.
  unfold TaskAnalysis_init. cbv zeta.
  destruct (validate_required_str "description" data),
    (validate_priority data), (validate_due_date data),
    (validate_required_str "category" data); intros [= <-]; done.
Qed.

Lemma locs_required_str name :
  name ≠ "priority" → name ≠ "due_date" →
  loc <$> errors_of (validate_required_str name data) =
    if field_ok data name then [] else [[name]].
Proof.
  intros Hp Hd. unfold validate_required_str, field_ok.
  rewrite !decide_False by done.
  by destruct (data !! name) as [[]|].
Qed.

Lemma locs_priority :
  loc <$> errors_of (validate_priority data) =
    if field_ok data "priority" then [] else [["priority"]].
Proof.
  unfold validate_priority, field_ok. rewrite decide_True by done.
  destruct (data !! "priority") as [[| | | |s| |]|]; try done.
  by destruct (bool_decide (s ∈ priority_literals)).
Qed.

Lemma locs_due_date :
  loc <$> errors_of (validate_due_date data) =
    if field_ok data "due_date" then [] else [["due_date"]].
Proof.
  unfold validate_due_date, field_ok.
  rewrite decide_False by done. rewrite decide_True by done.
  by destruct (data !! "due_date") as [[]|].
Qed.

Lemma violated_fields_unfold :
  violated_fields data =
    (if field_ok data "description" then [] else ["description"])
    ++ (if field_ok data "priority" then [] else ["priority"])
    ++ (if field_ok data "due_date" then [] else ["due_date"])
    ++ (if field_ok data "category" then [] else ["category"]).
Proof.
  unfold violated_fields, schema_fields.
  rewrite !filter_cons, filter_nil.
  destruct (field_ok data "description"), (field_ok data "priority"),
    (field_ok data "due_date"), (field_ok data "category");
    repeat case_decide; done.
Qed.

(** The locations of the errors are the violated fields, in order. *)
Lemma TaskAnalysis_init_locs errors :
  TaskAnalysis_init data = inl errors →
  loc <$> errors = (λ name, [name]) <$> violated_fields data.
Proof.
  intros ->%TaskAnalysis_init_inl.
  rewrite violated_fields_unfold, !fmap_app.
  rewrite !locs_required_str, locs_priority, locs_due_date by done.
  by destruct (field_ok data "description"), (field_ok data "priority"),
    (field_ok data "due_date"), (field_ok data "category").
Qed.

(** Validation fails exactly when some field is violated. *)
Lemma TaskAnalysis_init_fails :
  violated_fields data ≠ [] ↔ ∃ errors, TaskAnalysis_init data = inl errors.
Proof.
  split.
  - intros Hv. destruct (TaskAnalysis_init data) as [errors|t] eqn:Hinit; [eauto|].
    destruct Hv. apply TaskAnalysis_init_inr in Hinit as (Hd & Hp & Hdd & Hc).
    rewrite violated_fields_unfold.
    pose proof (locs_required_str "description" ltac:(done) ltac:(done)) as Ld.
    pose proof (locs_required_str "category" ltac:(done) ltac:(done)) as Lc.
    pose proof locs_priority as Lp. pose proof locs_due_date as Ldd.
    rewrite Hd in Ld. rewrite Hp in Lp. rewrite Hdd in Ldd. rewrite Hc in Lc.
    by destruct (field_ok data "description"), (field_ok data "priority"),
      (field_ok data "due_date"), (field_ok data "category").
  - intros [errors Hinit] Hv.
    pose proof (TaskAnalysis_init_locs _ Hinit) as Hlocs.
    rewrite Hv in Hlocs. apply fmap_nil_inv in Hlocs as ->.
    revert Hinit. unfold TaskAnalysis_init. cbv zeta.
    destruct (validate_required_str "description" data),
      (validate_priority data), (validate_due_date data),
      (validate_required_str "category" data); intros [=].
Qed.
End Validation.

Lemma validate_priority_inr (data : gmap string json) (p : string) :
  validate_priority data = inr p →
  data !! "priority" = Some (JStr p) ∧ p ∈ priority_literals.
Proof.
  unfold validate_priority.
  destruct (data !! "priority") as [[| | | |s| |]|]; try discriminate.
  destruct (bool_decide (s ∈ priority_literals)) eqn:Hs; intros [= <-].
  by apply bool_decide_eq_true in Hs.
Qed.

(** Invert a hypothesis [stops W payload r calls] and settle which way the
    [except] clause of line 95 and the constructor of line 103 went. *)
Ltac invert_stops H :=
  inversion H; subst;
  repeat match goal with
         | H' : context [except_ValidationError _] |- _ =>
             rewrite except_ValidationError_cases in H'
         | H' : JSONResponse_init (model_dump _) = _ |- _ =>
             rewrite JSONResponse_init_model_dump in H'
         | H' : context [if echo_encodable ?e then _ else _] |- _ =>
             destruct (echo_encodable e) eqn:?
         | H' : context [if dump_encodable ?t then _ else _] |- _ =>
             destruct (dump_encodable t) eqn:?
         end;
  simplify_eq.

(** The members of the literal are plain ASCII. *)
Lemma literal_encodable (p : string) : p ∈ priority_literals → encodable p = true.
Proof.
  unfold priority_literals. rewrite !elem_of_cons, elem_of_nil.
  intros [->|[->|[->|[]]]]; reflexivity.
Qed.

(** What a successful run went through. *)
Lemma success_inv (W : World) (payload : TaskRequest) log log' (r : JSONResponse) :
  analyze_task W payload log = (Returned r, log') →
  ∃ response fields validated,
    truthy (os_getenv W "OPENAI_API_KEY") = true ∧
    responses_create W (create_kwargs payload) = inr response ∧
    json_loads W (output_text response) = inr (JDict fields) ∧
    TaskAnalysis_init (apply_defaults fields) = inr validated ∧
    (∀ s, due_date validated = Some s → fromisoformat W s = inr ()) ∧
    dump_encodable validated = true ∧
    r = {| response_status := 200; response_content := model_dump validated |} ∧
    log' = log ++ [create_kwargs payload].
Proof.
  intros (calls & Hstops & ->)%analyze_task_inv.
  inversion Hstops as [| | | | | | |response fields validated r' Hkey Hcall Hdec Hval Hiso Hr];
    subst.
  rewrite JSONResponse_init_model_dump in Hr.
  destruct (dump_encodable validated) eqn:Henc; [|done].
  injection Hr as <-. eauto 12.
Qed.

(** A validated record passes the constructor of the response exactly
    when its strings can be encoded. *)
Lemma success_intro (W : World) (payload : TaskRequest) log response fields validated :
  truthy (os_getenv W "OPENAI_API_KEY") = true →
  responses_create W (create_kwargs payload) = inr response →
  json_loads W (output_text response) = inr (JDict fields) →
  TaskAnalysis_init (apply_defaults fields) = inr validated →
  (∀ s, due_date validated = Some s → fromisoformat W s = inr ()) →
  dump_encodable validated = true →
  analyze_task W payload log =
    (Returned {| response_status := 200; response_content := model_dump validated |},
     log ++ [create_kwargs payload]).
Proof.
  intros Hkey Hcall Hdec Hval Hiso Henc.
  eapply stage_success; [done..|].
  by rewrite JSONResponse_init_model_dump, Henc.
Qed.

(** ** The claims of the specification *)




(** C2. The defaulting step computes what the rules say: [priority]
    becomes ["medium"] exactly when it is absent or null, [category]
    becomes ["general"] exactly when it is absent, null or the empty
    string, [due_date] becomes null exactly when it is absent, and each of
    them is left as it is otherwise.  When the collaborator returns an
    object with only a [description], a success response carries that
    description with priority ["medium"], category ["general"] and a null
    [due_date]; the run is such a success whenever the description is a
    string that can be encoded. *)
Theorem defaulting_rules (data : gmap string json) :
  apply_defaults data = spec_defaults data ∧
  apply_defaults data !! "priority" =
    match data !! "priority" with
    | None | Some JNull => Some (JStr "medium")
    | Some v => Some v
    end ∧
  apply_defaults data !! "category" =
    match data !! "category" with
    | None | Some JNull | Some (JStr "") => Some (JStr "general")
    | Some v => Some v
    end ∧
  apply_defaults data !! "due_date" =
    match data !! "due_date" with
    | None => Some JNull
    | Some v => Some v
    end ∧
  ∀ (W : World) (payload : TaskRequest) (log : list Request)
    (response : Response) (v : json),
    data = {[ "description" := v ]} →
    truthy (os_getenv W "OPENAI_API_KEY") = true →
    responses_create W (create_kwargs payload) = inr response →
    json_loads W (output_text response) = inr (JDict data) →
    (∀ r log',
       analyze_task W payload log = (Returned r, log') →
       ∃ d, v = JStr d ∧
            response_status r = 200 ∧
            response_content r =
              [("description", JStr d); ("priority", JStr "medium");
               ("due_date", JNull); ("category", JStr "general")]) ∧
    (∀ d, v = JStr d → encodable d = true →
          analyze_task W payload log =
            (Returned {| response_status := 200;
                         response_content :=
                           [("description", JStr d); ("priority", JStr "medium");
                            ("due_date", JNull); ("category", JStr "general")] |},
             log ++ [create_kwargs payload])).
Proof.
  split; [apply apply_defaults_spec|].
  rewrite !lookup_apply_defaults. cbn [decide].
  split; [|split; [|split]].
  - rewrite decide_True by done. by destruct (data !! "priority") as [[]|].
  - rewrite decide_False, decide_True by done.
    by destruct (data !! "category") as [[| | | |[|]| |]|].
  - rewrite !decide_False, decide_True by done.
    by destruct (data !! "due_date") as [[]|].
  - intros W payload log response v Hdata Hkey Hcall Hdec. split.
    2: {
      intros d -> Hd. subst data.
      eapply (success_intro W payload log response _
                {| description := d; priority := "medium"; due_date := None;
                   category := "general" |}); [done..| | |].
      - unfold TaskAnalysis_init, validate_required_str, validate_priority,
          validate_due_date. cbv zeta. rewrite !lookup_apply_defaults.
        by simplify_map_eq.
      - intros s [=].
      - unfold dump_encodable. cbn. by rewrite Hd. }
    intros r log' (response' & fields & validated & _ & Hcall' & Hdec' & Hval & _ & _ & Hr & _)%success_inv.
    subst data r. rewrite Hcall in Hcall'. injection Hcall' as <-.
    rewrite Hdec in Hdec'. injection Hdec' as <-.
    apply TaskAnalysis_init_inr in Hval as (Hd & Hp & Hdd & Hc).
    revert Hd Hp Hdd Hc.
    unfold validate_required_str, validate_priority, validate_due_date.
    rewrite !lookup_apply_defaults. simplify_map_eq.
    destruct v; try discriminate. intros [= Hd] [= Hp] [= Hdd] [= Hc].
    eexists. split; [reflexivity|]. split; [reflexivity|].
    unfold model_dump. by rewrite <- Hd, <- Hp, <- Hdd, <- Hc.
Qed.

Lemma defaulting_rules_witness :
  analyze_task (Scenario.world (Some "sk-test") (inr Scenario.bare_text)) Scenario.ask [] =
    (Returned {| response_status := 200;
                 response_content :=
                   [("description", JStr "Buy milk"); ("priority", JStr "medium");
                    ("due_date", JNull); ("category", JStr "general")] |},
     [] ++ [create_kwargs Scenario.ask]).
Proof.
  destruct (defaulting_rules Scenario.bare) as (_ & _ & _ & _ & Hrun).
  apply (Hrun (Scenario.world (Some "sk-test") (inr Scenario.bare_text)) Scenario.ask []
           {| output_text := Scenario.bare_text |} (JStr "Buy milk")).
  - reflexivity.
  - vm_compute. reflexivity.
  - reflexivity.
  - vm_compute. reflexivity.
  - reflexivity.
  - vm_compute. reflexivity.
Defined.

(** C3, at the input where it fails.  When the text of the collaborator
    decodes to a JSON value that is not an object (a list, a string, a
    number, a boolean, null), the handler ends with the [AttributeError] of
    [data.get], which no [except] clause catches: the run ends with neither
    a response nor an [HTTPException]. *)
Theorem non_object_output_escapes (W : World) (payload : TaskRequest)
    (log : list Request) (response : Response) (v : json) :
  truthy (os_getenv W "OPENAI_API_KEY") = true →
  responses_create W (create_kwargs payload) = inr response →
  json_loads W (output_text response) = inr v →
  (∀ fields, v ≠ JDict fields) →
  ∃ text,
    analyze_task W payload log = (Raised (AttributeError text), log ++ [create_kwargs payload]) ∧
    text = "'" +:+ type_name v +:+ "' object has no attribute 'get'" ∧
    (∀ r, (analyze_task W payload log).1 ≠ Returned r) ∧
    (∀ status detail, (analyze_task W payload log).1 ≠ Raised (HTTPException status detail)).
Proof.
  intros Hkey Hcall Hdec Hv. eexists. split; [by eapply stage_attribute|].
  split; [reflexivity|].
  erewrite stage_attribute by done. by split; intros.
Qed.

Lemma non_object_output_escapes_witness :
  ∃ text,
    analyze_task (Scenario.world (Some "sk-test") (inr "[]")) Scenario.ask [] =
      (Raised (AttributeError text), [] ++ [create_kwargs Scenario.ask]) ∧
    text = "'" +:+ type_name (JList []) +:+ "' object has no attribute 'get'" ∧
    (∀ r, (analyze_task (Scenario.world (Some "sk-test") (inr "[]")) Scenario.ask []).1
          ≠ Returned r) ∧
    (∀ status detail,
       (analyze_task (Scenario.world (Some "sk-test") (inr "[]")) Scenario.ask []).1
       ≠ Raised (HTTPException status detail)).
Proof.
  apply (non_object_output_escapes (Scenario.world (Some "sk-test") (inr "[]"))
           Scenario.ask [] {| output_text := "[]" |} (JList [])).
  - vm_compute. reflexivity.
  - reflexivity.
  - vm_compute. reflexivity.
  - intros fields. discriminate.
Defined.

(** C4. When the credential variable is not set, every request ends with
    status 500 and the fixed message, whatever its text, and the log of
    outbound calls is left as it was: no call is made. *)
Theorem missing_credential (W : World) (payload : TaskRequest) (log : list Request) :
  os_getenv W "OPENAI_API_KEY" = None →
  analyze_task W payload log =
    (Raised (HTTPException 500
       (DetailStr "OPENAI_API_KEY is not set. Configure it to call the OpenAI API.")),
     log).
Proof.
  intros Hunset. apply stage_credential. by rewrite Hunset.
Qed.

Lemma missing_credential_witness :
  analyze_task (Scenario.world None (inr Scenario.report_text)) Scenario.ask [] =
    (Raised (HTTPException 500
       (DetailStr "OPENAI_API_KEY is not set. Configure it to call the OpenAI API.")),
     []).
Proof.
  apply (missing_credential (Scenario.world None (inr Scenario.report_text)) Scenario.ask []).
  vm_compute. reflexivity.
Defined.




(** C6, at the input where it fails.  When the errors of a failed schema
    validation echo an input that holds a surrogate, [exc.json()] raises
    inside the [except] clause of line 95: the handler ends with that
    [ValueError], not with a 422. *)
Theorem schema_error_echo_escapes (W : World) (payload : TaskRequest) (log : list Request)
    (response : Response) (fields : gmap string json) (errors : list ErrorDetails) :
  truthy (os_getenv W "OPENAI_API_KEY") = true →
  responses_create W (create_kwargs payload) = inr response →
  json_loads W (output_text response) = inr (JDict fields) →
  TaskAnalysis_init (apply_defaults fields) = inl errors →
  echo_encodable errors = false →
  analyze_task W payload log = (Raised ValueError, log ++ [create_kwargs payload]) ∧
  (∀ status detail,
     (analyze_task W payload log).1 ≠ Raised (HTTPException status detail)).
Proof.
  intros Hkey Hcall Hdec Hval Hecho.
  assert (analyze_task W payload log = (Raised ValueError, log ++ [create_kwargs payload]))
    as Hrun.
  { erewrite stage_schema by done. by rewrite except_ValidationError_cases, Hecho. }
  split; [done|]. by rewrite Hrun.
Qed.

Lemma schema_error_echo_escapes_witness :
  analyze_task (Lenient.world Lenient.stray_priority_text (JDict Lenient.stray_priority))
    Scenario.ask []
  = (Raised ValueError, [] ++ [create_kwargs Scenario.ask]) ∧
  (∀ status detail,
     (analyze_task (Lenient.world Lenient.stray_priority_text (JDict Lenient.stray_priority))
        Scenario.ask []).1
     ≠ Raised (HTTPException status detail)).
Proof.
  apply (schema_error_echo_escapes
           (Lenient.world Lenient.stray_priority_text (JDict Lenient.stray_priority))
           Scenario.ask [] {| output_text := Lenient.stray_priority_text |}
           Lenient.stray_priority
           [ {| type_ := "literal_error"; loc := ["priority"];
                msg := "Input should be 'low', 'medium' or 'high'";
                input_value := JStr Lenient.lone |} ]).
  - vm_compute. reflexivity.
  - reflexivity.
  - vm_compute. reflexivity.
  - vm_compute. reflexivity.
  - vm_compute. reflexivity.
Defined.



(** C8. The defaulting step changes at most the keys [priority],
    [category] and [due_date]: every other key keeps its value, every key
    of the decoded object is still a key afterwards, and the only keys it
    can add are those three. *)
Theorem defaulting_frame (data : gmap string json) :
  (∀ k, k ∉ ["priority"; "category"; "due_date"] →
        apply_defaults data !! k = data !! k) ∧
  dom data ⊆ dom (apply_defaults data) ∧
  dom (apply_defaults data) ⊆ dom data ∪ {["priority"; "category"; "due_date"]}.
Proof.
  split; [|split].
  - intros k Hk. rewrite lookup_apply_defaults.
    rewrite !decide_False; [done|set_solver..].
  - intros k [v Hv]%elem_of_dom. apply elem_of_dom.
    rewrite lookup_apply_defaults. rewrite <- !not_eq_None_Some.
    repeat case_decide; subst; rewrite ?Hv; try done.
    + by destruct v.
    + by destruct v as [| | | |[|]| |].
    + by destruct v.
  - intros k [v Hv]%elem_of_dom. rewrite lookup_apply_defaults in Hv.
    repeat case_decide; subst; [set_solver..|].
    apply elem_of_union_l, elem_of_dom. by exists v.
Qed.

Lemma defaulting_frame_witness :
  apply_defaults Scenario.noted !! "note" = Scenario.noted !! "note".
Proof.
  apply (defaulting_frame Scenario.noted).
  apply (bool_decide_unpack ("note" ∉ ["priority"; "category"; "due_date"])).
  vm_compute. exact I.
Defined.

(** The outcome of a run depends on the world only through the truth
    value of the credential, the reply to the request of this run and the
    two decoders, and not on the calls logged before. *)
Lemma analyze_task_agree (W1 W2 : World) (payload : TaskRequest)
    (log1 log2 : list Request) :
  truthy (os_getenv W1 "OPENAI_API_KEY") = truthy (os_getenv W2 "OPENAI_API_KEY") →
  responses_create W1 (create_kwargs payload) = responses_create W2 (create_kwargs payload) →
  (∀ s, json_loads W1 s = json_loads W2 s) →
  (∀ s, fromisoformat W1 s = fromisoformat W2 s) →
  (analyze_task W1 payload log1).1 = (analyze_task W2 payload log2).1.
Proof.
  intros Hkey Hcall Hloads Hiso.
  unfold analyze_task, mbind, M_bind, call_responses_create.
  rewrite Hkey, Hcall.
  destruct (truthy (os_getenv W2 "OPENAI_API_KEY")); [|reflexivity].
  cbn [negb mret M_ret raise try_except].
  destruct (responses_create W2 (create_kwargs payload)) as [exc|response];
    [reflexivity|].
  cbn [mret M_ret raise try_except]. rewrite Hloads.
  destruct (json_loads W2 (output_text response)) as [exc|v]; [reflexivity|].
  cbn [mret M_ret raise try_except].
  destruct v; try reflexivity. cbn [get_attr_get mret M_ret].
  destruct (TaskAnalysis_init (apply_defaults fields)) as [errors|validated];
    [reflexivity|].
  cbn [mret M_ret raise try_except].
  destruct (due_date validated) as [s|].
  - rewrite Hiso. destruct (fromisoformat W2 s); [reflexivity|].
    cbn [mret M_ret raise try_except call].
    by destruct (JSONResponse_init (model_dump validated)).
  - cbn [mret M_ret raise try_except call].
    by destruct (JSONResponse_init (model_dump validated)).
Qed.

(** The bytes of the body of a successful run. *)
Lemma render_model_dump (t : TaskAnalysis) :
  render (model_dump t) =
    Some ("{" +:+ String.concat ","
            [ dumps_str "description" +:+ ":" +:+ dumps_str (description t);
              dumps_str "priority" +:+ ":" +:+ dumps_str (priority t);
              dumps_str "due_date" +:+ ":" +:+
                match due_date t with Some s => dumps_str s | None => "null" end;
              dumps_str "category" +:+ ":" +:+ dumps_str (category t) ] +:+ "}").
Proof.
  unfold render, model_dump. cbn [dumps_items dumps_flat].
  by destruct (due_date t).
Qed.

(** C9. Against a collaborator whose reply to the request of the run does
    not depend on the calls it has received before, two invocations of the
    handler in a row with the same text end alike, and when they end in a
    response the two bodies are the same bytes.  The collaborator is free
    to answer other requests as it likes, and the second invocation runs
    on the log the first one left. *)
Theorem handler_deterministic (W : World)
    (collaborator : list Request → Request → string + Response)
    (payload : TaskRequest) (log : list Request) :
  (∀ history history',
     collaborator history (create_kwargs payload)
     = collaborator history' (create_kwargs payload)) →
  (invoke_twice W collaborator payload log).1 = (invoke_twice W collaborator payload log).2 ∧
  output_bytes (invoke_twice W collaborator payload log).1
    = output_bytes (invoke_twice W collaborator payload log).2 ∧
  (∀ response,
     (invoke_twice W collaborator payload log).1 = Returned response →
     is_Some (output_bytes (invoke_twice W collaborator payload log).2)).
Proof.
  intros Hsteady. unfold invoke_twice, invoke.
  destruct (analyze_task (with_responses_create W (collaborator log)) payload log)
    as [r1 log1] eqn:Hrun1.
  destruct (analyze_task (with_responses_create W (collaborator log1)) payload log1)
    as [r2 log2] eqn:Hrun2.
  cbn [fst snd].
  assert (r1 = r2) as <-.
  { change r1 with (r1, log1).1. change r2 with (r2, log2).1.
    rewrite <- Hrun1, <- Hrun2. apply analyze_task_agree; try done. apply Hsteady. }
  split; [done|]. split; [done|].
  intros response ->.
  apply success_inv in Hrun1 as (? & ? & validated & _ & _ & _ & _ & _ & _ & -> & _).
  cbn [output_bytes response_content]. rewrite render_model_dump. by eexists.
Qed.

Lemma handler_deterministic_witness :
  (invoke_twice (Scenario.world (Some "sk-test") (inr "")) Lenient.steady Scenario.ask []).1
  = (invoke_twice (Scenario.world (Some "sk-test") (inr "")) Lenient.steady Scenario.ask []).2 ∧
  output_bytes
    (invoke_twice (Scenario.world (Some "sk-test") (inr "")) Lenient.steady Scenario.ask []).1
  = output_bytes
      (invoke_twice (Scenario.world (Some "sk-test") (inr "")) Lenient.steady Scenario.ask []).2 ∧
  (∀ response,
     (invoke_twice (Scenario.world (Some "sk-test") (inr "")) Lenient.steady Scenario.ask []).1
     = Returned response →
     is_Some
       (output_bytes
          (invoke_twice (Scenario.world (Some "sk-test") (inr "")) Lenient.steady
             Scenario.ask []).2)).
Proof.
  apply (handler_deterministic (Scenario.world (Some "sk-test") (inr "")) Lenient.steady
           Scenario.ask []).
  intros history history'. reflexivity.
Defined.

(** The hypothesis on the collaborator is needed: against one that answers
    the second call differently, the two bodies differ. *)
Lemma moody_collaborator_differs :
  output_bytes
    (invoke_twice (Scenario.world (Some "sk-test") (inr "")) Lenient.moody Scenario.ask []).1
  ≠ output_bytes
      (invoke_twice (Scenario.world (Some "sk-test") (inr "")) Lenient.moody Scenario.ask []).2.
Proof. vm_compute. discriminate. Qed.

(** Fields that agree on the four keys of the schema validate alike. *)
Lemma TaskAnalysis_init_agree (data1 data2 : gmap string json) (t : TaskAnalysis) :
  (∀ name, name ∈ schema_fields → data1 !! name = data2 !! name) →
  TaskAnalysis_init data1 = inr t → TaskAnalysis_init data2 = inr t.
Proof.
  intros Hagree (Hd & Hp & Hdd & Hc)%TaskAnalysis_init_inr.
  destruct t as [d p dd c]. cbn in *.
  unfold TaskAnalysis_init. cbv zeta.
  assert (validate_required_str "description" data2 = inr d) as ->.
  { revert Hd. unfold validate_required_str.
    rewrite <- (Hagree "description") by set_solver.
    by destruct (data1 !! "description") as [[]|]. }
  assert (validate_priority data2 = inr p) as ->.
  { revert Hp. unfold validate_priority.
    rewrite <- (Hagree "priority") by set_solver.
    by destruct (data1 !! "priority") as [[]|]. }
  assert (validate_due_date data2 = inr dd) as ->.
  { revert Hdd. unfold validate_due_date.
    by rewrite <- (Hagree "due_date") by set_solver. }
  assert (validate_required_str "category" data2 = inr c) as ->.
  { revert Hc. unfold validate_required_str.
    rewrite <- (Hagree "category") by set_solver.
    by destruct (data1 !! "category") as [[]|]. }
  done.
Qed.

Lemma apply_defaults_insert_agree (fields : gmap string json) (k : string) (v : json) :
  k ∉ schema_fields →
  ∀ name, name ∈ schema_fields →
          apply_defaults (<[k := v]> fields) !! name = apply_defaults fields !! name.
Proof.
  intros Hk name Hname.
  assert (∀ name', name' ∈ schema_fields → <[k := v]> fields !! name' = fields !! name')
    as Hother.
  { intros name' Hname'. apply lookup_insert_ne. by intros ->. }
  rewrite !lookup_apply_defaults.
  rewrite (Hother "priority"), (Hother "category"), (Hother "due_date"), (Hother name);
    [done|done|unfold schema_fields; repeat constructor..].
Qed.

(** C10. The body of a 200 response has exactly the keys [description],
    [priority], [due_date] and [category], in this order.  A key of the
    collaborator's object that is none of the four is still there after the
    defaulting step, and the successful response is the one the handler
    gives for the object without that key. *)
Theorem response_has_exactly_schema_fields (W : World) (payload : TaskRequest)
    (log log' : list Request) (r : JSONResponse) :
  (analyze_task W payload log = (Returned r, log') →
   (response_content r).*1 = schema_fields) ∧
  (∀ (fields : gmap string json) (k : string) (v : json),
     k ∉ schema_fields →
     apply_defaults (<[k := v]> fields) !! k = Some v ∧
     (analyze_task (with_json_loads W (λ _, inr (JDict fields))) payload log
        = (Returned r, log') ↔
      analyze_task (with_json_loads W (λ _, inr (JDict (<[k := v]> fields)))) payload log
        = (Returned r, log'))).
Proof.
  split.
  - intros (? & ? & validated & _ & _ & _ & _ & _ & _ & Hr & _)%success_inv. by subst r.
  - intros fields k v Hk. split.
    { rewrite lookup_apply_defaults, !decide_False by set_solver.
      apply lookup_insert_eq. }
    split.
    + intros (response & fields' & validated & Hkey & Hcall & Hdec & Hval & Hiso & Henc
              & Hr & Hlog)%success_inv.
      subst r log'. cbn in Hdec. injection Hdec as <-.
      eapply success_intro; [exact Hkey|exact Hcall|reflexivity| |exact Hiso|exact Henc].
      eapply TaskAnalysis_init_agree; [|exact Hval].
      intros name Hname. symmetry. by apply apply_defaults_insert_agree.
    + intros (response & fields' & validated & Hkey & Hcall & Hdec & Hval & Hiso & Henc
              & Hr & Hlog)%success_inv.
      subst r log'. cbn in Hdec. injection Hdec as <-.
      eapply success_intro; [exact Hkey|exact Hcall|reflexivity| |exact Hiso|exact Henc].
      eapply TaskAnalysis_init_agree; [|exact Hval].
      intros name Hname. by apply apply_defaults_insert_agree.
Qed.

Lemma response_has_exactly_schema_fields_witness :
  (response_content
     {| response_status := 200;
        response_content :=
          [("description", JStr "Buy milk"); ("priority", JStr "medium");
           ("due_date", JNull); ("category", JStr "general")] |}).*1 = schema_fields ∧
  apply_defaults (<["note" := JStr "x"]> Scenario.bare) !! "note" = Some (JStr "x").
Proof.
  pose proof (response_has_exactly_schema_fields
                (Scenario.world (Some "sk-test") (inr Scenario.noted_text)) Scenario.ask
                [] [create_kwargs Scenario.ask]
                {| response_status := 200;
                   response_content :=
                     [("description", JStr "Buy milk"); ("priority", JStr "medium");
                      ("due_date", JNull); ("category", JStr "general")] |})
    as [Hkeys Hextra].
  split.
  - apply Hkeys. vm_compute. reflexivity.
  - apply (Hextra Scenario.bare "note" (JStr "x")).
    apply (bool_decide_unpack ("note" ∉ schema_fields)). vm_compute. exact I.
Defined.

(** * Further properties of the code *)

(** ** Shared facts *)

(** The state of the three defaulted keys after the step. *)
Lemma defaults_present (data : gmap string json) :
  is_None (apply_defaults data !! "priority") = false ∧
  in_None_or_empty (apply_defaults data !! "category") = false ∧
  is_Some (apply_defaults data !! "due_date").
Proof.
  rewrite !lookup_apply_defaults.
  rewrite decide_True by done.
  rewrite decide_False, decide_True by done.
  rewrite !decide_False, decide_True by done.
  split; [|split].
  - by destruct (data !! "priority") as [[]|].
  - by destruct (data !! "category") as [[| | | |[|]| |]|].
  - destruct (data !! "due_date") as [[]|]; cbn; eauto.
Qed.

(** A validated category is never the empty string. *)
Lemma validated_category_nonempty (fields : gmap string json) (t : TaskAnalysis) :
  TaskAnalysis_init (apply_defaults fields) = inr t → category t ≠ "".
Proof.
  intros (_ & _ & _ & Hc)%TaskAnalysis_init_inr.
  destruct (defaults_present fields) as (_ & Hcat & _).
  revert Hc Hcat. unfold validate_required_str.
  destruct (apply_defaults fields !! "category") as [[| | | |c| |]|]; try done.
  intros [= <-]. by destruct c.
Qed.

(** The lookups of the dictionary of a dumped model. *)
Lemma lookup_model_dump (t : TaskAnalysis) :
  dict_of (model_dump t) !! "description" = Some (JStr (description t)) ∧
  dict_of (model_dump t) !! "priority" = Some (JStr (priority t)) ∧
  dict_of (model_dump t) !! "due_date"
    = Some (match due_date t with Some s => JStr s | None => JNull end) ∧
  dict_of (model_dump t) !! "category" = Some (JStr (category t)).
Proof.
  unfold dict_of, model_dump. cbn [list_to_map foldr uncurry].
  by simplify_map_eq.
Qed.

(** Validating the dump of a model whose priority is a member of the
    literal gives the model back. *)
Lemma TaskAnalysis_init_model_dump (t : TaskAnalysis) :
  priority t ∈ priority_literals →
  TaskAnalysis_init (dict_of (model_dump t)) = inr t.
Proof.
  intros Hp. destruct (lookup_model_dump t) as (Hd & Hpr & Hdd & Hc).
  unfold TaskAnalysis_init, validate_required_str, validate_priority, validate_due_date.
  cbv zeta. rewrite Hd, Hpr, Hdd, Hc.
  rewrite bool_decide_eq_true_2 by done.
  by destruct t as [d p [s|] c].
Qed.

(** ** The outbound call *)

(** X1. A run makes exactly one outbound call when the credential is
    configured, whether the run then succeeds or fails, and none when it is
    not; it never retries and never touches the calls logged before. *)
Theorem outbound_calls (W : World) (payload : TaskRequest) (log log' : list Request)
    (r : result JSONResponse) :
  analyze_task W payload log = (r, log') →
  log' = log ++ (if truthy (os_getenv W "OPENAI_API_KEY")
                 then [create_kwargs payload] else []).
Proof.
  intros (calls & Hstops & ->)%analyze_task_inv.
  inversion Hstops
    as [Hkey|? Hkey|? ? Hkey|? ? Hkey|? ? ? Hkey|? ? ? ? ? Hkey|? ? ? ? Hkey|? ? ? ? Hkey];
    subst; by rewrite Hkey.
Qed.

Lemma outbound_calls_witness :
  [create_kwargs Scenario.ask] =
    [] ++ (if truthy (os_getenv (Scenario.world (Some "sk-test") (inl "Connection error."))
                        "OPENAI_API_KEY")
           then [create_kwargs Scenario.ask] else []).
Proof.
  apply (outbound_calls (Scenario.world (Some "sk-test") (inl "Connection error."))
           Scenario.ask [] [create_kwargs Scenario.ask]
           (Raised (HTTPException 502 (DetailStr "OpenAI API error: Connection error.")))).
  vm_compute. reflexivity.
Defined.

(** X2. The handler answers 500 exactly when the credential variable is
    unset or set to the empty string: an empty value counts as no
    credential, every other value lets the request through. *)
Theorem misconfigured_iff (W : World) (payload : TaskRequest) (log : list Request) :
  (∃ detail log',
     analyze_task W payload log = (Raised (HTTPException 500 detail), log')) ↔
  (os_getenv W "OPENAI_API_KEY" = None ∨ os_getenv W "OPENAI_API_KEY" = Some "").
Proof.
  split.
  - intros (detail & log' & (calls & Hstops & _)%analyze_task_inv).
    assert (truthy (os_getenv W "OPENAI_API_KEY") = false) as Hkey.
    { invert_stops Hstops. done. }
    destruct (os_getenv W "OPENAI_API_KEY") as [[|c k]|]; [by right|done|by left].
  - intros Hkey. eexists _, _. apply stage_credential.
    by destruct Hkey as [-> | ->].
Qed.

Lemma misconfigured_iff_witness :
  ∃ detail log',
    analyze_task (Scenario.world (Some "") (inr Scenario.report_text)) Scenario.ask []
      = (Raised (HTTPException 500 detail), log').
Proof.
  apply (misconfigured_iff (Scenario.world (Some "") (inr Scenario.report_text))
           Scenario.ask []).
  right. vm_compute. reflexivity.
Defined.

(** ** More on the defaulting step *)

(** X3. Defaulting twice is defaulting once. *)
Theorem apply_defaults_idempotent (data : gmap string json) :
  apply_defaults (apply_defaults data) = apply_defaults data.
Proof.
  apply map_eq. intros k.
  destruct (defaults_present data) as (Hp & Hc & [v Hd]).
  rewrite (lookup_apply_defaults (apply_defaults data)).
  rewrite Hp, Hc, Hd.
  repeat case_decide; subst; try done.
  by destruct v.
Qed.

(** X4. The step leaves an object as it is exactly when the object has a
    non-null [priority], a [category] that is neither null nor the empty
    string, and a [due_date] key. *)
Theorem apply_defaults_fixed_iff (data : gmap string json) :
  apply_defaults data = data ↔
  is_None (data !! "priority") = false ∧
  in_None_or_empty (data !! "category") = false ∧
  is_Some (data !! "due_date").
Proof.
  split.
  - intros Hfix. pose proof (defaults_present data) as Hpresent.
    by rewrite Hfix in Hpresent.
  - intros (Hp & Hc & [v Hd]). apply map_eq. intros k.
    rewrite lookup_apply_defaults, Hp, Hc, Hd.
    repeat case_decide; subst; try done.
    by destruct v.
Qed.

Lemma apply_defaults_fixed_iff_witness :
  apply_defaults Scenario.report = Scenario.report.
Proof.
  apply (apply_defaults_fixed_iff Scenario.report).
  vm_compute. eauto.
Defined.

(** X5. The three assignments are independent: any two of them commute. *)
Theorem default_steps_commute (data : gmap string json) :
  default_priority (default_category data) = default_category (default_priority data) ∧
  default_priority (default_due_date data) = default_due_date (default_priority data) ∧
  default_category (default_due_date data) = default_due_date (default_category data).
Proof.
  repeat split; apply map_eq; intros k;
    rewrite ?lookup_default_priority, ?lookup_default_category, ?lookup_default_due_date;
    rewrite ?lookup_default_priority, ?lookup_default_category, ?lookup_default_due_date;
    repeat case_decide; subst; done.
Qed.



(** ** More on schema validation *)

(** X7. A failed validation reports every violated field at once: the
    error list is not empty, has at most one error per field of the
    schema, and holds an error for a field exactly when the field violates
    its constraint. *)
Theorem validation_reports_all (data : gmap string json) (errors : list ErrorDetails) :
  TaskAnalysis_init data = inl errors →
  errors ≠ [] ∧
  (length errors ≤ 4)%nat ∧
  NoDup (loc <$> errors) ∧
  ∀ name, [name] ∈ loc <$> errors ↔ name ∈ schema_fields ∧ field_ok data name = false.
Proof.
  intros Hinit. pose proof (TaskAnalysis_init_locs _ _ Hinit) as Hlocs.
  assert (Inj (=) (=) (λ name : string, [name])) as Hinj by (by intros ?? [=]).
  split; [|split; [|split]].
  - intros ->. apply (proj2 (TaskAnalysis_init_fails data)); [by eexists|].
    symmetry in Hlocs. by apply fmap_nil_inv in Hlocs.
  - rewrite <- (length_fmap loc), Hlocs, length_fmap.
    unfold violated_fields. etrans; [apply length_filter|]. done.
  - rewrite Hlocs. apply NoDup_fmap_2; [done|].
    unfold violated_fields. apply NoDup_filter.
    unfold schema_fields. apply (bool_decide_unpack _). by vm_compute.
  - intros name. rewrite Hlocs, list_elem_of_fmap. unfold violated_fields. split.
    + intros (name' & [= <-] & Hin%list_elem_of_filter). tauto.
    + intros [Hin Hbad]. exists name. split; [done|]. by apply list_elem_of_filter.
Qed.

Lemma validation_reports_all_witness :
  ∃ errors,
    TaskAnalysis_init (apply_defaults Bodies.vague) = inl errors ∧
    errors ≠ [] ∧ (length errors ≤ 4)%nat ∧ NoDup (loc <$> errors) ∧
    ∀ name, [name] ∈ loc <$> errors ↔
            name ∈ schema_fields ∧ field_ok (apply_defaults Bodies.vague) name = false.
Proof.
  eexists. split; [vm_compute; reflexivity|].
  apply (validation_reports_all (apply_defaults Bodies.vague)).
  vm_compute. reflexivity.
Defined.

(** X8. Validation inverts [model_dump]: the dictionary dumped from a
    model validates back to the same model, exactly when the model's
    priority is one of the three literals. *)
Theorem model_dump_round_trip (t : TaskAnalysis) :
  TaskAnalysis_init (dict_of (model_dump t)) = inr t ↔ priority t ∈ priority_literals.
Proof.
  split; [|apply TaskAnalysis_init_model_dump].
  intros (_ & [_ Hp]%validate_priority_inr & _)%TaskAnalysis_init_inr. done.
Qed.

Lemma model_dump_round_trip_witness :
  TaskAnalysis_init (dict_of (model_dump Bodies.report_record)) = inr Bodies.report_record.
Proof.
  apply (model_dump_round_trip Bodies.report_record).
  apply (bool_decide_unpack _). by vm_compute.
Defined.

(** ** More on the successful response *)

(** X9. A 200 response never carries an empty category: an empty category
    from the collaborator has been replaced by ["general"]. *)
Theorem category_never_empty (W : World) (payload : TaskRequest)
    (log log' : list Request) (r : JSONResponse) :
  analyze_task W payload log = (Returned r, log') →
  (("category", JStr "") ∉ response_content r) ∧
  (("category", JNull) ∉ response_content r).
Proof.
  intros (response & fields & validated & _ & _ & _ & Hval & _ & _ & Hr & _)%success_inv.
  subst r. apply validated_category_nonempty in Hval.
  unfold model_dump. cbn [response_content].
  split; rewrite !elem_of_cons, elem_of_nil.
  - intros [[=]|[[=]|[[=]|[[= Hc]|[]]]]]. by apply Hval.
  - intros [[=]|[[=]|[[=]|[[=]|[]]]]].
Qed.

Lemma category_never_empty_witness :
  let r := {| response_status := 200;
              response_content :=
                [("description", JStr "Buy milk"); ("priority", JStr "medium");
                 ("due_date", JNull); ("category", JStr "general")] |} in
  (("category", JStr "") ∉ response_content r) ∧
  (("category", JNull) ∉ response_content r).
Proof.
  intros r.
  apply (category_never_empty (Scenario.world (Some "sk-test") (inr Scenario.bare_text))
           Scenario.ask [] [create_kwargs Scenario.ask] r).
  vm_compute. reflexivity.
Defined.

(** An object with the three defaulted keys in place passes the step
    unchanged. *)
Lemma apply_defaults_fixed (data : gmap string json) :
  is_None (data !! "priority") = false →
  in_None_or_empty (data !! "category") = false →
  is_Some (data !! "due_date") →
  apply_defaults data = data.
Proof.
  intros Hp Hc [v Hd]. apply map_eq. intros k.
  rewrite lookup_apply_defaults, Hp, Hc, Hd.
  repeat case_decide; subst; try done.
  by destruct v.
Qed.

(** X10. A successful response is a fixed point of the handler: taken as
    the collaborator's object, the body of a 200 response passes the
    defaulting step unchanged and is answered with the same response. *)
Theorem response_is_fixed_point (W : World) (payload : TaskRequest)
    (log log' : list Request) (r : JSONResponse) :
  analyze_task W payload log = (Returned r, log') →
  apply_defaults (dict_of (response_content r)) = dict_of (response_content r) ∧
  analyze_task (with_json_loads W (λ _, inr (JDict (dict_of (response_content r)))))
    payload log = (Returned r, log').
Proof.
  intros (response & fields & validated & Hkey & Hcall & _ & Hval & Hiso & Henc & Hr
          & Hlog)%success_inv.
  subst r log'. cbn [response_content].
  pose proof (validated_category_nonempty _ _ Hval) as Hcat.
  apply TaskAnalysis_init_inr in Hval as (_ & [_ Hp]%validate_priority_inr & _ & _).
  destruct (lookup_model_dump validated) as (Ld & Lp & Ldd & Lc).
  assert (apply_defaults (dict_of (model_dump validated)) = dict_of (model_dump validated))
    as Hfix.
  { apply apply_defaults_fixed.
    - by rewrite Lp.
    - rewrite Lc. by destruct (category validated).
    - by rewrite Ldd. }
  split; [done|].
  eapply success_intro; [exact Hkey|exact Hcall|reflexivity| |exact Hiso|exact Henc].
  rewrite Hfix. by apply TaskAnalysis_init_model_dump.
Qed.

Lemma response_is_fixed_point_witness :
  let r := {| response_status := 200;
              response_content :=
                [("description", JStr "Buy milk"); ("priority", JStr "medium");
                 ("due_date", JNull); ("category", JStr "general")] |} in
  apply_defaults (dict_of (response_content r)) = dict_of (response_content r) ∧
  analyze_task
    (with_json_loads (Scenario.world (Some "sk-test") (inr Scenario.bare_text))
       (λ _, inr (JDict (dict_of (response_content r)))))
    Scenario.ask [] = (Returned r, [create_kwargs Scenario.ask]).
Proof.
  intros r.
  apply (response_is_fixed_point (Scenario.world (Some "sk-test") (inr Scenario.bare_text))
           Scenario.ask [] [create_kwargs Scenario.ask] r).
  vm_compute. reflexivity.
Defined.

(** X11. A well-formed object is passed through: when the collaborator's
    object has a string [description], a [priority] among the literals, a
    non-empty string [category] and a [due_date] that is absent, null or a
    string the date-time decoder accepts, and these strings can be
    encoded, the response is 200 and carries exactly these values, with
    null for an absent [due_date]. *)
Theorem well_formed_passes_through (W : World) (payload : TaskRequest) (log : list Request)
    (response : Response) (fields : gmap string json)
    (d p c : string) (due : option string) :
  truthy (os_getenv W "OPENAI_API_KEY") = true →
  responses_create W (create_kwargs payload) = inr response →
  json_loads W (output_text response) = inr (JDict fields) →
  fields !! "description" = Some (JStr d) →
  encodable d = true →
  fields !! "priority" = Some (JStr p) →
  p ∈ priority_literals →
  fields !! "category" = Some (JStr c) →
  c ≠ "" →
  encodable c = true →
  match due with
  | Some s => fields !! "due_date" = Some (JStr s) ∧ fromisoformat W s = inr () ∧
              encodable s = true
  | None => is_None (fields !! "due_date") = true
  end →
  analyze_task W payload log =
    (Returned {| response_status := 200;
                 response_content :=
                   [("description", JStr d); ("priority", JStr p);
                    ("due_date", match due with Some s => JStr s | None => JNull end);
                    ("category", JStr c)] |},
     log ++ [create_kwargs payload]).
Proof.
  intros Hkey Hcall Hdec Hd Hdenc Hp Hlit Hc Hne Hcenc Hdue.
  eapply (success_intro W payload log response fields
            {| description := d; priority := p; due_date := due; category := c |});
    [done..| | |].
  - assert (apply_defaults fields !! "description" = Some (JStr d)) as Ld.
    { rewrite lookup_apply_defaults, !decide_False by done. exact Hd. }
    assert (apply_defaults fields !! "priority" = Some (JStr p)) as Lp.
    { rewrite lookup_apply_defaults, decide_True by done. by rewrite Hp. }
    assert (apply_defaults fields !! "category" = Some (JStr c)) as Lc.
    { rewrite lookup_apply_defaults, decide_False, decide_True by done.
      rewrite Hc. by destruct c. }
    assert (validate_due_date (apply_defaults fields) = inr due) as Ldd.
    { unfold validate_due_date.
      rewrite lookup_apply_defaults, !decide_False, decide_True by done.
      destruct due as [s|].
      - destruct Hdue as [-> _]. done.
      - by destruct (fields !! "due_date") as [[]|]. }
    unfold TaskAnalysis_init, validate_required_str, validate_priority.
    cbv zeta. rewrite Ld, Lp, Lc, Ldd.
    by rewrite bool_decide_eq_true_2.
  - cbn [due_date]. intros s ->. by destruct Hdue as (_ & ? & _).
  - unfold dump_encodable. cbn [description priority due_date category].
    rewrite Hdenc, Hcenc, (literal_encodable p Hlit).
    destruct due as [s|]; [|done]. by destruct Hdue as (_ & _ & ->).
Qed.

Lemma well_formed_passes_through_witness :
  analyze_task (Scenario.world (Some "sk-test") (inr Scenario.report_text)) Scenario.ask [] =
    (Returned {| response_status := 200;
                 response_content :=
                   [("description", JStr "Finish the report"); ("priority", JStr "high");
                    ("due_date", JStr "2026-02-11T15:00:00"); ("category", JStr "work")] |},
     [] ++ [create_kwargs Scenario.ask]).
Proof.
  apply (well_formed_passes_through
           (Scenario.world (Some "sk-test") (inr Scenario.report_text)) Scenario.ask []
           {| output_text := Scenario.report_text |} Scenario.report
           "Finish the report" "high" "work" (Some "2026-02-11T15:00:00")).
  - vm_compute. reflexivity.
  - reflexivity.
  - vm_compute. reflexivity.
  - vm_compute. reflexivity.
  - vm_compute. reflexivity.
  - vm_compute. reflexivity.
  - apply (bool_decide_unpack _). by vm_compute.
  - vm_compute. reflexivity.
  - discriminate.
  - vm_compute. reflexivity.
  - repeat split; vm_compute; reflexivity.
Defined.

(** X19. A valid object with a surrogate in its [description],
    [category] or [due_date] gets no response: the record passes the
    schema and the date-time check, and the constructor of the response on
    line 103 raises [UnicodeEncodeError], which leaves the handler after
    its one outbound call. *)
Theorem surrogate_response_escapes (W : World) (payload : TaskRequest) (log : list Request)
    (response : Response) (fields : gmap string json) (validated : TaskAnalysis) :
  truthy (os_getenv W "OPENAI_API_KEY") = true →
  responses_create W (create_kwargs payload) = inr response →
  json_loads W (output_text response) = inr (JDict fields) →
  TaskAnalysis_init (apply_defaults fields) = inr validated →
  (∀ s, due_date validated = Some s → fromisoformat W s = inr ()) →
  dump_encodable validated = false →
  analyze_task W payload log = (Raised UnicodeEncodeError, log ++ [create_kwargs payload]).
Proof.
  intros Hkey Hcall Hdec Hval Hiso Henc.
  eapply stage_render; [done..|].
  by rewrite JSONResponse_init_model_dump, Henc.
Qed.

Lemma surrogate_response_escapes_witness :
  analyze_task
    (Lenient.world Lenient.stray_description_text (JDict Lenient.stray_description))
    Scenario.ask []
  = (Raised UnicodeEncodeError, [] ++ [create_kwargs Scenario.ask]).
Proof.
  apply (surrogate_response_escapes
           (Lenient.world Lenient.stray_description_text (JDict Lenient.stray_description))
           Scenario.ask [] {| output_text := Lenient.stray_description_text |}
           Lenient.stray_description
           {| description := Lenient.lone; priority := "medium"; due_date := None;
              category := "general" |}).
  - vm_compute. reflexivity.
  - reflexivity.
  - vm_compute. reflexivity.
  - vm_compute. reflexivity.
  - intros s [=].
  - vm_compute. reflexivity.
Defined.

(** X21. Every string of a 200 response can be encoded as UTF-8: no field
    of a response holds a surrogate. *)
Theorem response_strings_encodable (W : World) (payload : TaskRequest)
    (log log' : list Request) (r : JSONResponse) :
  analyze_task W payload log = (Returned r, log') →
  ∀ k s, (k, JStr s) ∈ response_content r → encodable s = true.
Proof.
  intros (response & fields & validated & _ & _ & _ & _ & _ & Henc & Hr & _)%success_inv.
  subst r. revert Henc. unfold dump_encodable, model_dump. cbn [response_content].
  rewrite !andb_true_iff. intros [[[Hd Hp] Hdd] Hc] k s.
  rewrite !elem_of_cons, elem_of_nil.
  intros [[= _ ->]|[[= _ ->]|[Hdue|[[= _ ->]|[]]]]]; try done.
  destruct (due_date validated) as [s'|]; [|discriminate].
  by injection Hdue as _ ->.
Qed.

Lemma response_strings_encodable_witness : encodable "Buy milk" = true.
Proof.
  apply (response_strings_encodable
           (Scenario.world (Some "sk-test") (inr Scenario.bare_text)) Scenario.ask []
           [create_kwargs Scenario.ask]
           {| response_status := 200;
              response_content :=
                [("description", JStr "Buy milk"); ("priority", JStr "medium");
                 ("due_date", JNull); ("category", JStr "general")] |}
           ltac:(vm_compute; reflexivity) "description" "Buy milk").
  apply list_elem_of_here.
Defined.

(** ** The schema error of line 95 *)

(** A dictionary can be encoded when its keys and values can. *)
Lemma json_encodable_dict (m : gmap string json) :
  json_encodable (JDict m) = true ↔
  ∀ k v, m !! k = Some v → encodable k = true ∧ json_encodable v = true.
Proof.
  cbn [json_encodable].
  induction m as [|k v m Hk Hfold IH] using map_first_key_ind.
  - rewrite map_fold_empty. split; [|done]. intros _ k v. by rewrite lookup_empty.
  - rewrite map_fold_insert_first_key by done.
    rewrite !andb_true_iff, IH. split.
    + intros [[Hk1 Hv1] Hm] k' v'. rewrite lookup_insert.
      case_decide; [intros [= <-]; subst; done|]. apply Hm.
    + intros H. split; [apply (H k v); by rewrite lookup_insert_eq|].
      intros k' v' Hkv. apply H. rewrite lookup_insert_ne; [done|]. intros ->. congruence.
Qed.

(** The defaulting step adds plain ASCII only. *)
Lemma apply_defaults_encodable (fields : gmap string json) :
  json_encodable (JDict fields) = true →
  json_encodable (JDict (apply_defaults fields)) = true.
Proof.
  rewrite !json_encodable_dict. intros Hfields k v.
  rewrite lookup_apply_defaults.
  repeat case_decide; subst;
    try destruct (is_None _); try destruct (in_None_or_empty _);
    try (intros [= <-]; split; reflexivity); apply Hfields.
Qed.

(** The errors of an object that can be encoded echo inputs that can. *)
Lemma echo_of_encodable (data : gmap string json) (errors : list ErrorDetails) :
  json_encodable (JDict data) = true →
  TaskAnalysis_init data = inl errors →
  echo_encodable errors = true.
Proof.
  intros Hdata ->%TaskAnalysis_init_inl.
  pose proof (proj1 (json_encodable_dict data) Hdata) as Hlookup.
  assert (∀ name, match data !! name with
                  | Some v => json_encodable v = true
                  | None => True
                  end) as Hvalue.
  { intros name. destruct (data !! name) as [v|] eqn:Hv; [|done]. by eapply Hlookup. }
  unfold echo_encodable. rewrite !forallb_app, !andb_true_iff.
  pose proof (Hvalue "description") as Hd. pose proof (Hvalue "priority") as Hp.
  pose proof (Hvalue "due_date") as Hdd. pose proof (Hvalue "category") as Hc.
  unfold validate_required_str, validate_priority, validate_due_date.
  repeat split.
  - destruct (data !! "description") as [[]|]; cbn [errors_of forallb input_value];
      rewrite ?Hd, ?Hdata; done.
  - destruct (data !! "priority") as [[| | | |s| |]|];
      try destruct (bool_decide (s ∈ priority_literals));
      cbn [errors_of forallb input_value]; rewrite ?Hp, ?Hdata; done.
  - destruct (data !! "due_date") as [[]|]; cbn [errors_of forallb input_value];
      rewrite ?Hdd, ?Hdata; done.
  - destruct (data !! "category") as [[]|]; cbn [errors_of forallb input_value];
      rewrite ?Hc, ?Hdata; done.
Qed.

(** X18. When the collaborator's object holds no surrogate and its
    defaulted form violates the constraint of some field, the handler ends
    with status 422 and its detail lists one error per violated field,
    located at that field. *)
Theorem schema_violation_422_encodable (W : World) (payload : TaskRequest)
    (log : list Request) (response : Response) (fields : gmap string json) :
  truthy (os_getenv W "OPENAI_API_KEY") = true →
  responses_create W (create_kwargs payload) = inr response →
  json_loads W (output_text response) = inr (JDict fields) →
  json_encodable (JDict fields) = true →
  (∃ name, name ∈ schema_fields ∧ field_ok (apply_defaults fields) name = false) →
  ∃ errors,
    analyze_task W payload log =
      (Raised (HTTPException 422 (DetailErrors errors)), log ++ [create_kwargs payload]) ∧
    loc <$> errors = (λ name, [name]) <$> violated_fields (apply_defaults fields) ∧
    errors ≠ [].
Proof.
  intros Hkey Hcall Hdec Henc (name & Hname & Hbad).
  assert (name ∈ violated_fields (apply_defaults fields)) as Hin.
  { unfold violated_fields. by apply list_elem_of_filter. }
  assert (violated_fields (apply_defaults fields) ≠ []) as Hne.
  { intros Hnil. rewrite Hnil in Hin. by apply not_elem_of_nil in Hin. }
  destruct (proj1 (TaskAnalysis_init_fails _) Hne) as [errors Hval].
  exists errors. split.
  { erewrite stage_schema by done. rewrite except_ValidationError_cases.
    by rewrite (echo_of_encodable _ _ (apply_defaults_encodable _ Henc) Hval). }
  pose proof (TaskAnalysis_init_locs _ _ Hval) as Hlocs. split; [done|].
  intros ->. destruct Hne. symmetry in Hlocs. by apply fmap_nil_inv in Hlocs.
Qed.

Lemma schema_violation_422_encodable_witness :
  ∃ errors,
    analyze_task (Scenario.world (Some "sk-test") (inr Scenario.urgent_text)) Scenario.ask [] =
      (Raised (HTTPException 422 (DetailErrors errors)), [] ++ [create_kwargs Scenario.ask]) ∧
    loc <$> errors = (λ name, [name]) <$> violated_fields (apply_defaults Scenario.urgent) ∧
    errors ≠ [].
Proof.
  apply (schema_violation_422_encodable
           (Scenario.world (Some "sk-test") (inr Scenario.urgent_text))
           Scenario.ask [] {| output_text := Scenario.urgent_text |} Scenario.urgent).
  - vm_compute. reflexivity.
  - reflexivity.
  - vm_compute. reflexivity.
  - vm_compute. reflexivity.
  - exists "priority". split; [|vm_compute; reflexivity].
    apply list_elem_of_In. simpl. tauto.
Defined.

(** ** Order of the checks *)

(** X12. Schema errors come first: when some field is violated and
    [due_date] is a string, the run ends in the [except] clause of line 95
    whatever the date-time decoder would say about that string: with the
    [ValueError] of [exc.json()], or with the 422 of the schema, and then
    [due_date] is not among the reported fields. *)
Theorem schema_errors_mask_due_date (W : World) (payload : TaskRequest)
    (log : list Request) (response : Response) (fields : gmap string json) (s : string) :
  truthy (os_getenv W "OPENAI_API_KEY") = true →
  responses_create W (create_kwargs payload) = inr response →
  json_loads W (output_text response) = inr (JDict fields) →
  fields !! "due_date" = Some (JStr s) →
  violated_fields (apply_defaults fields) ≠ [] →
  ∃ e,
    (∀ decoder,
       analyze_task (with_fromisoformat W decoder) payload log =
         (Raised e, log ++ [create_kwargs payload])) ∧
    (e = ValueError ∨
     ∃ errors, e = HTTPException 422 (DetailErrors errors) ∧ ["due_date"] ∉ loc <$> errors).
Proof.
  intros Hkey Hcall Hdec Hdue Hbad.
  destruct (proj1 (TaskAnalysis_init_fails _) Hbad) as [errors Hval].
  exists (except_ValidationError errors). split.
  - intros decoder. eapply stage_schema; [exact Hkey|exact Hcall|exact Hdec|exact Hval].
  - rewrite except_ValidationError_cases.
    destruct (echo_encodable errors); [right|by left].
    exists errors. split; [done|].
    rewrite (TaskAnalysis_init_locs _ _ Hval).
    intros (name & [= <-] & Hin)%list_elem_of_fmap.
    apply list_elem_of_filter in Hin as [Hok _]. revert Hok.
    unfold field_ok. rewrite decide_False, decide_True by done.
    rewrite lookup_apply_defaults, !decide_False, decide_True by done.
    by rewrite Hdue.
Qed.

Lemma schema_errors_mask_due_date_witness :
  ∃ e,
    (∀ decoder,
       analyze_task
         (with_fromisoformat
            (with_json_loads (Scenario.world (Some "sk-test") (inr Bodies.vague_text))
               (λ _, inr (JDict Bodies.vague)))
            decoder)
         Scenario.ask [] =
         (Raised e, [] ++ [create_kwargs Scenario.ask])) ∧
    (e = ValueError ∨
     ∃ errors, e = HTTPException 422 (DetailErrors errors) ∧ ["due_date"] ∉ loc <$> errors).
Proof.
  apply (schema_errors_mask_due_date
           (with_json_loads (Scenario.world (Some "sk-test") (inr Bodies.vague_text))
              (λ _, inr (JDict Bodies.vague)))
           Scenario.ask [] {| output_text := Bodies.vague_text |} Bodies.vague
           "next tuesday").
  - vm_compute. reflexivity.
  - reflexivity.
  - reflexivity.
  - vm_compute. reflexivity.
  - vm_compute. discriminate.
Defined.

(** ** The route *)



(** What the validator of the body accepts. *)
Lemma TaskRequest_init_inr (body : gmap string json) (payload : TaskRequest) :
  TaskRequest_init body = inr payload →
  body !! "text" = Some (JStr (text payload)) ∧ text payload ≠ "" ∧
  encodable (text payload) = true.
Proof.
  unfold TaskRequest_init.
  destruct (body !! "text") as [[| | | |s| |]|]; try discriminate.
  destruct (encodable s) eqn:Henc; [|discriminate]. cbn [negb].
  destruct s as [|c s]; [discriminate|]. cbn [String.length Nat.ltb Nat.leb].
  intros [= <-]. done.
Qed.

Lemma TaskRequest_init_accepts (body : gmap string json) (t : string) :
  body !! "text" = Some (JStr t) → t ≠ "" → encodable t = true →
  TaskRequest_init body = inr {| text := t |}.
Proof.
  intros Ht Hne Henc. unfold TaskRequest_init. rewrite Ht, Henc. cbn [negb].
  by destruct t.
Qed.

(** X15. The route never sends an empty user message: whatever it answers,
    it has made no call, or exactly one call whose user message is the
    non-empty [text] of the body, after the system prompt. *)
Theorem route_calls (W : World) (body : gmap string json) (log log' : list Request)
    (out : served) :
  post_analyze_task W body log = (out, log') →
  log' = log ∨
  ∃ t, body !! "text" = Some (JStr t) ∧ t ≠ "" ∧
       log' = log ++ [ {| model := "gpt-4.1-mini";
                          input := [ {| role := "system"; content := SYSTEM_PROMPT |};
                                     {| role := "user"; content := t |} ] |} ].
Proof.
  unfold post_analyze_task.
  destruct (TaskRequest_init body) as [errors|payload] eqn:Hinit.
  { intros [= _ <-]. by left. }
  destruct (analyze_task W payload log) as [r log''] eqn:Hrun. intros [= _ <-].
  apply analyze_task_inv in Hrun as (calls & Hstops & ->).
  apply TaskRequest_init_inr in Hinit as (Ht & Hne & _).
  inversion Hstops; subst; [left; apply app_nil_r|right; exists (text payload); done..].
Qed.

Lemma route_calls_witness :
  [create_kwargs Scenario.ask] = [] ∨
  ∃ t, Bodies.asking !! "text" = Some (JStr t) ∧ t ≠ "" ∧
       [create_kwargs Scenario.ask] =
         [] ++ [ {| model := "gpt-4.1-mini";
                    input := [ {| role := "system"; content := SYSTEM_PROMPT |};
                               {| role := "user"; content := t |} ] |} ].
Proof.
  apply (route_calls (Scenario.world (Some "sk-test") (inr Scenario.report_text))
           Bodies.asking [] [create_kwargs Scenario.ask]
           (Handled (Returned {| response_status := 200;
                                 response_content := model_dump Bodies.report_record |}))).
  vm_compute. reflexivity.
Defined.

(** X17. Keys of the body other than [text] are ignored: a body whose
    [text] is a non-empty string that can be encoded is served as the
    handler serves that text, with or without them. *)
Theorem route_ignores_extra_keys (W : World) (body : gmap string json)
    (log : list Request) (k : string) (v : json) (t : string) :
  k ≠ "text" →
  body !! "text" = Some (JStr t) →
  t ≠ "" →
  encodable t = true →
  post_analyze_task W (<[k := v]> body) log = post_analyze_task W body log ∧
  post_analyze_task W body log =
    ((Handled (analyze_task W {| text := t |} log).1), (analyze_task W {| text := t |} log).2).
Proof.
  intros Hk Ht Hne Henc. unfold post_analyze_task.
  rewrite (TaskRequest_init_accepts body t) by done.
  rewrite (TaskRequest_init_accepts (<[k := v]> body) t);
    [|by rewrite lookup_insert_ne|done..].
  by destruct (analyze_task W {| text := t |} log).
Qed.

Lemma route_ignores_extra_keys_witness :
  post_analyze_task (Scenario.world (Some "sk-test") (inr Scenario.report_text))
    (<["lang" := JStr "en"]> Bodies.asking) []
  = post_analyze_task (Scenario.world (Some "sk-test") (inr Scenario.report_text))
      Bodies.asking [] ∧
  post_analyze_task (Scenario.world (Some "sk-test") (inr Scenario.report_text))
    Bodies.asking []
  = ((Handled (analyze_task (Scenario.world (Some "sk-test") (inr Scenario.report_text))
                 Scenario.ask []).1),
     (analyze_task (Scenario.world (Some "sk-test") (inr Scenario.report_text))
        Scenario.ask []).2).
Proof.
  apply (route_ignores_extra_keys
           (Scenario.world (Some "sk-test") (inr Scenario.report_text))
           Bodies.asking [] "lang" (JStr "en")
           "Finish the report by tomorrow 3pm, high priority").
  - discriminate.
  - vm_compute. reflexivity.
  - discriminate.
  - vm_compute. reflexivity.
Defined.



(** ** The exits of the handler *)

(** X16. The ways a run can end: a response; an [HTTPException] whose
    status is 500, 502 or 422; the [AttributeError] of [data.get], only
    after the call has returned a text that decodes to a value that is not
    an object; the [ValueError] of [exc.json()], only when the schema
    rejects the defaulted object with an error that echoes a surrogate;
    the [UnicodeEncodeError] of the constructor of the response, only when
    the validated record holds a surrogate. *)
Theorem analyze_task_outcomes (W : World) (payload : TaskRequest)
    (log log' : list Request) (r : result JSONResponse) :
  analyze_task W payload log = (r, log') →
  (∃ body, r = Returned body) ∨
  (∃ status detail, r = Raised (HTTPException status detail) ∧ status ∈ [500; 502; 422]) ∨
  (∃ response v text,
     responses_create W (create_kwargs payload) = inr response ∧
     json_loads W (output_text response) = inr v ∧
     (∀ fields, v ≠ JDict fields) ∧
     r = Raised (AttributeError text)) ∨
  (∃ response fields errors,
     responses_create W (create_kwargs payload) = inr response ∧
     json_loads W (output_text response) = inr (JDict fields) ∧
     TaskAnalysis_init (apply_defaults fields) = inl errors ∧
     echo_encodable errors = false ∧
     r = Raised ValueError) ∨
  (∃ response fields validated,
     responses_create W (create_kwargs payload) = inr response ∧
     json_loads W (output_text response) = inr (JDict fields) ∧
     TaskAnalysis_init (apply_defaults fields) = inr validated ∧
     dump_encodable validated = false ∧
     r = Raised UnicodeEncodeError).
Proof.
  intros (calls & Hstops & _)%analyze_task_inv.
  inversion Hstops as [| | | |response fields errors Hkey Hcall Hdec Hval
                       | |response fields validated e Hkey Hcall Hdec Hval Hiso Hr|]; subst.
  - right; left. eexists _, _. split; [reflexivity|]. repeat constructor.
  - right; left. eexists _, _. split; [reflexivity|]. repeat constructor.
  - right; left. eexists _, _. split; [reflexivity|]. repeat constructor.
  - do 2 right. left. eauto 10.
  - rewrite except_ValidationError_cases.
    destruct (echo_encodable errors) eqn:Hecho.
    + right; left. eexists _, _. split; [reflexivity|]. repeat constructor.
    + do 3 right. left. eauto 10.
  - right; left. eexists _, _. split; [reflexivity|]. repeat constructor.
  - rewrite JSONResponse_init_model_dump in Hr.
    destruct (dump_encodable validated) eqn:Henc; [done|]. injection Hr as <-.
    do 4 right. eauto 10.
  - left. eauto.
Qed.

Lemma analyze_task_outcomes_witness :
  let W := Lenient.world Lenient.stray_description_text (JDict Lenient.stray_description) in
  let r : result JSONResponse := Raised UnicodeEncodeError in
  (∃ body, r = Returned body) ∨
  (∃ status detail, r = Raised (HTTPException status detail) ∧ status ∈ [500; 502; 422]) ∨
  (∃ response v text,
     responses_create W (create_kwargs Scenario.ask) = inr response ∧
     json_loads W (output_text response) = inr v ∧
     (∀ fields, v ≠ JDict fields) ∧
     r = Raised (AttributeError text)) ∨
  (∃ response fields errors,
     responses_create W (create_kwargs Scenario.ask) = inr response ∧
     json_loads W (output_text response) = inr (JDict fields) ∧
     TaskAnalysis_init (apply_defaults fields) = inl errors ∧
     echo_encodable errors = false ∧
     r = Raised ValueError) ∨
  (∃ response fields validated,
     responses_create W (create_kwargs Scenario.ask) = inr response ∧
     json_loads W (output_text response) = inr (JDict fields) ∧
     TaskAnalysis_init (apply_defaults fields) = inr validated ∧
     dump_encodable validated = false ∧
     r = Raised UnicodeEncodeError).
Proof.
  intros W r.
  apply (analyze_task_outcomes W Scenario.ask [] [create_kwargs Scenario.ask] r).
  vm_compute. reflexivity.
Defined.
